(** * jishaku: the root command and the dropdown component

    A shallow embedding of [src/jishaku/features/root_command.py] and
    [src/Dropdown.py].

    Modelling conventions.

    - The host framework (discord.py, asyncio, psutil, importlib) is the
      boundary of the model.  What the code reads from it is a field of
      a record ([Context], [Env]); a call that acts on it ([ctx.send],
      [ctx.reply], [task.cancel()], [interface.send_to],
      [interaction.response.send_message]) is recorded as an [Effect],
      in the order the code performs it.  What the framework does with a
      call afterwards (delivery, splitting the paginator's lines into
      pages, unwinding a cancelled coroutine) is its own behaviour and
      is not modelled.
    - The cog's mutable attributes ([self.tasks], [self.jsk.hidden]) are
      an explicit state threaded through every command.
    - An exception raised by the code itself, or by the Python
      operations it applies, is an explicit [Raised] outcome; state
      changes and effects made before the raise persist, as they do in
      Python.
    - Floats are IEEE 754 doubles; the C library's [log] is a parameter
      of everything that depends on it. *)

From Stdlib Require Import ZArith List String Ascii Bool Lia.
From Stdlib Require Import DecimalString Decimal.
From Stdlib Require Import Floats.SpecFloat.
Import ListNotations.

Local Open Scope string_scope.
Local Open Scope Z_scope.

(** ** The fragment of the Python runtime the code relies on *)
Module Py.

(** Exceptions the modelled code can raise. *)
Inductive Exc : Type :=
| BadArgument (msg : string)
| ValueError (msg : string)
| OverflowError (msg : string)
| ZeroDivisionError (msg : string)
| IndexError (msg : string)
| KeyError (key : string)
| AttributeError (msg : string)
| TypeError (msg : string).

(** How a call ends: normally with a value, or by an exception. *)
Inductive Completion (A : Type) : Type :=
| Returned (a : A)
| Raised (e : Exc).
Arguments Returned {A} a.
Arguments Raised {A} e.

Definition bind {A B} (c : Completion A) (k : A -> Completion B) : Completion B :=
  match c with
  | Returned a => k a
  | Raised e => Raised e
  end.

Declare Scope py_scope.
Delimit Scope py_scope with py.
Notation "x <- c ;; k" := (bind c (fun x => k))
  (at level 61, c at next level, right associativity) : py_scope.

(** [str(n)] for an [int]. *)
Definition str_int (n : Z) : string := NilZero.string_of_int (Z.to_int n).

(** [str(x)] for an [Optional[int]]: [None] prints as its name. *)
Definition str_opt_int (x : option Z) : string :=
  match x with
  | Some n => str_int n
  | None => "None"
  end.

(** Truthiness of an [Optional[int]]: [None] and [0] are falsy. *)
Definition truthy_opt_int (x : option Z) : bool :=
  match x with
  | Some n => negb (n =? 0)
  | None => false
  end.

(** A decimal number left-padded with zeros to [width] digits, the
    [%m], [%d], [%H], [%M] and [%S] conversions of [strftime], and
    [%Y] as documented (four digits). *)
Fixpoint zeros (k : nat) : string :=
  match k with
  | O => ""
  | S k' => "0" ++ zeros k'
  end.

Definition zero_pad (width : nat) (n : Z) : string :=
  let s := str_int n in
  zeros (width - String.length s) ++ s.

(** The fields of a [datetime.datetime] that the code prints. *)
Record datetime : Type := mk_datetime {
  year : Z; month : Z; day : Z; hour : Z; minute : Z; second : Z
}.

(** [dt.strftime('%Y-%m-%d %H:%M:%S')]. *)
Definition strftime_ymd_hms (dt : datetime) : string :=
  zero_pad 4 (year dt) ++ "-" ++ zero_pad 2 (month dt) ++ "-" ++ zero_pad 2 (day dt)
  ++ " " ++ zero_pad 2 (hour dt) ++ ":" ++ zero_pad 2 (minute dt) ++ ":"
  ++ zero_pad 2 (second dt).

(** [sep.join(parts)] is the library's [String.concat sep parts]. *)
Definition join (sep : string) (parts : list string) : string := String.concat sep parts.

(** The one-character strings the source writes as escapes. *)
Definition nl : string := String (ascii_of_nat 10) EmptyString.
Definition dquote : string := String (ascii_of_nat 34) EmptyString.

(** [needle in haystack] for strings: as a proposition, and as the
    test that decides it. *)
Definition contains (haystack needle : string) : Prop :=
  exists pre post, haystack = pre ++ needle ++ post.

Fixpoint contains_b (haystack needle : string) : bool :=
  String.prefix needle haystack
  || match haystack with
     | EmptyString => false
     | String _ rest => contains_b rest needle
     end.

End Py.

(** ** Python's [float] and the arithmetic [natural_size] performs

    A [float] is an IEEE 754 binary64 value, taken from [SpecFloat]
    (53-bit significand, exponents up to 1024, round to nearest even).
    The C library's [log] is the one operation IEEE 754 does not fix;
    it stays a parameter ([m_log], CPython's name for its wrapper). *)
Module PyFloat.
Import Py.
Local Open Scope py_scope.

Definition prec : Z := 53.
Definition emax : Z := 1024.

Definition float : Type := spec_float.

(** [float(n)] for an [int] ([PyLong_AsDouble]): the nearest double,
    ties to even; [OverflowError] when that is not finite. *)
Definition float_of_int (n : Z) : Completion float :=
  match binary_normalize prec emax n 0 false with
  | S754_infinity _ => Raised (OverflowError "int too large to convert to float")
  | x => Returned x
  end.

(** [_PyLong_Frexp]: [n] as [x * 2**e] with [x] a double in
    [[0.5, 1)], the significand rounded to nearest even. *)
Definition long_frexp (n : Z) : float * Z :=
  let d := Z.log2 n + 1 in
  let x := binary_normalize prec emax n (- d) false in
  if SFeqb x (SFone prec emax)
  then (binary_normalize prec emax 1 (-1) false, d + 1)
  else (x, d).

(** [int(x)] for a [float]: truncation towards zero. *)
Definition int_of_float (x : float) : Completion Z :=
  match x with
  | S754_nan => Raised (ValueError "cannot convert float NaN to integer")
  | S754_infinity _ => Raised (OverflowError "cannot convert float infinity to integer")
  | S754_zero _ => Returned 0
  | S754_finite s m e =>
      let a := Z.shiftl (Zpos m) e in
      Returned (if s then - a else a)
  end.

Definition is_zero (x : float) : bool :=
  match x with
  | S754_zero _ => true
  | _ => false
  end.

(** A non-zero finite double. *)
Definition is_finite (x : float) : bool :=
  match x with
  | S754_finite _ _ _ => true
  | _ => false
  end.

(** A double that is neither an infinity nor a NaN. *)
Definition is_number (x : float) : bool :=
  match x with
  | S754_zero _ | S754_finite _ _ _ => true
  | _ => false
  end.

(** [a / b] for two [float]s. *)
Definition float_truediv (a b : float) : Completion float :=
  if is_zero b then Raised (ZeroDivisionError "float division by zero")
  else Returned (SFdiv prec emax a b).

(** [a / b] for two [int]s ([long_true_divide]): the double nearest
    the exact quotient. *)
Definition int_truediv (a b : Z) : Completion float :=
  if b =? 0 then Raised (ZeroDivisionError "division by zero")
  else
    let sign := xorb (a <? 0) (b <? 0) in
    if a =? 0 then Returned (S754_zero sign)
    else
      let '(mz, ez, lz) := SFdiv_core_binary prec emax (Z.abs a) 0 (Z.abs b) 0 in
      match binary_round_aux prec emax sign mz ez lz with
      | S754_infinity _ =>
          Raised (OverflowError "integer division result too large for a float")
      | q => Returned q
      end.

(** What [1024 ** power] evaluates to: an [int] for a non-negative
    exponent, a [float] otherwise. *)
Inductive number : Type :=
| Int (n : Z)
| Float (x : float).

(** [base ** e] for [int]s with [base] a positive power of two,
    [base = 2 ** k]: an exact [int] when [e >= 0]; otherwise the
    [float] [2.0 ** (k * e)], which underflows to zero silently. *)
Definition pow_of_two_pow (k e : Z) : number :=
  if 0 <=? e then Int (2 ^ (k * e))
  else Float (binary_normalize prec emax 1 (k * e) false).

(** [n / d] for an [int] [n] and the value of [1024 ** power]. *)
Definition truediv (n : Z) (d : number) : Completion float :=
  match d with
  | Int b => int_truediv n b
  | Float y => x <- float_of_int n ;; float_truediv x y
  end.

(** Round a non-negative dyadic number [m * 2**e] times [10**digits]
    to the nearest integer, ties to even. *)
Definition round_scaled (digits : nat) (m : positive) (e : Z) : Z :=
  let scaled := Zpos m * 10 ^ Z.of_nat digits in
  if 0 <=? e then scaled * 2 ^ e
  else
    let den := 2 ^ (- e) in
    let q := scaled / den in
    let r := scaled mod den in
    match 2 * r ?= den with
    | Lt => q
    | Gt => q + 1
    | Eq => if Z.even q then q else q + 1
    end.

(** [format(x, '.<digits>f')]: the exact value of the double, rounded
    half to even at the requested decimal. *)
Definition format_f (digits : nat) (x : float) : string :=
  let body (r : Z) :=
    let unit := 10 ^ Z.of_nat digits in
    str_int (r / unit)
    ++ match digits with
       | O => ""
       | _ => "." ++ zero_pad digits (r mod unit)
       end in
  match x with
  | S754_nan => "nan"
  | S754_infinity s => if s then "-inf" else "inf"
  | S754_zero s => (if s then "-" else "") ++ body 0
  | S754_finite s m e => (if s then "-" else "") ++ body (round_scaled digits m e)
  end.

(** [t[i]] for a tuple of strings, negative indices counting from the
    end. *)
Definition tuple_getitem (t : list string) (i : Z) : Completion string :=
  let len := Z.of_nat (List.length t) in
  let j := if i <? 0 then i + len else i in
  if (j <? 0) || (len <=? j) then Raised (IndexError "tuple index out of range")
  else
    match nth_error t (Z.to_nat j) with
    | Some x => Returned x
    | None => Raised (IndexError "tuple index out of range")
    end.

Section Libm.

(** The C library's natural logarithm on doubles. *)
Variable m_log : float -> float.

(** [loghelper(arg, m_log)] on an [int]: non-positive arguments are a
    domain error; an argument too large for a double is split by
    [long_frexp] first. *)
Definition loghelper (arg : Z) : Completion float :=
  if arg <=? 0 then Raised (ValueError "math domain error")
  else
    match float_of_int arg with
    | Returned x => Returned (m_log x)
    | Raised _ =>
        let '(x, e) := long_frexp arg in
        Returned (SFadd prec emax (m_log x)
                    (SFmul prec emax (m_log (binary_normalize prec emax 2 0 false))
                       (binary_normalize prec emax e 0 false)))
    end.

(** [math.log(x, base)] on two [int]s. *)
Definition math_log (x base : Z) : Completion float :=
  num <- loghelper x ;;
  den <- loghelper base ;;
  float_truediv num den.

End Libm.

(** A stand-in for the C library, used only to run the model on sample
    inputs: the integer part of the base-2 logarithm, as a double. *)
Definition log2_floor (x : float) : float :=
  match x with
  | S754_finite false m e => binary_normalize prec emax (Z.log2 (Zpos m) + e) 0 false
  | _ => S754_nan
  end.

End PyFloat.

(** ** The framework objects the commands touch *)
Module Discord.

(** An [asyncio.Task], known to the code only by identity. *)
Definition TaskHandle : Type := nat.

(** [commands.Context]: compared by identity ([ctx_oid]); the code
    reads the author's id, the invoked command's qualified name and
    the invoking message's creation time. *)
Record Context : Type := mk_Context {
  ctx_oid : nat;
  author_id : Z;
  command_qualified_name : string;
  message_created_at : Py.datetime
}.

(** [commands.Paginator(max_size=...)] with the lines handed to
    [add_line], in call order. *)
Record Paginator : Type := mk_Paginator {
  max_size : Z;
  lines : list string
}.

Definition add_line (p : Paginator) (line : string) : Paginator :=
  {| max_size := max_size p; lines := (lines p ++ [line])%list |}.

(** Modelled from the spec: the paginated listing handed to the
    framework.  [PaginatorInterface] is declared in
    [jishaku.paginators], which is not among the sources; what the code
    gives it is kept: the paginator and the owner (by the author's
    id). *)
Record PaginatorInterface : Type := mk_PaginatorInterface {
  paginator : Paginator;
  owner : Z
}.

(** [discord.Embed] with the parts the status brief sets. *)
Record Embed : Type := mk_Embed {
  title : string;
  description : string;
  color : Z;
  thumbnail_url : string;
  footer_text : string;
  footer_icon_url : string
}.

(** Calls across the framework boundary. *)
Inductive Effect : Type :=
| CtxSend (content : string)
| CtxReply (embed : Embed) (mention_author : bool)
| InterfaceSendTo (interface : PaginatorInterface)
| TaskCancel (task : TaskHandle)
| ResponseSendMessage (content : string) (ephemeral : bool).

End Discord.

(** ** [jishaku.features.root_command] *)
Module RootCommand.
Import Py PyFloat Discord.

Definition units : list string :=
  ["B"; "KiB"; "MiB"; "GiB"; "TiB"; "PiB"; "EiB"; "ZiB"; "YiB"].

Section NaturalSize.

Variable m_log : float -> float.

(** [power = int(math.log(size_in_bytes, 1024))]. *)
Definition natural_size_power (size_in_bytes : Z) : Completion Z :=
  (l <- math_log m_log size_in_bytes 1024 ;;
   int_of_float l)%py.

(** [natural_size]: the f-string divides and formats first, then
    indexes [units]. *)
Definition natural_size (size_in_bytes : Z) : Completion string :=
  (power <- natural_size_power size_in_bytes ;;
   value <- truediv size_in_bytes (pow_of_two_pow 10 power) ;;
   unit <- tuple_getitem units power ;;
   Returned (format_f 2 value ++ " " ++ unit))%py.

End NaturalSize.

(** *** Task and visibility commands *)

(** Modelled from the spec: an in-flight background task.  The class
    [CommandTask] is declared in [jishaku.features.baseclass], which is
    not among the sources; its fields are the three this file reads
    ([index], [ctx], [task]).  It is a named tuple: never empty, hence
    always truthy, and compared field by field. *)
Record CommandTask : Type := mk_CommandTask {
  index : Z;
  ctx : Context;
  task : TaskHandle
}.

Definition CommandTask_eqb (a b : CommandTask) : bool :=
  (index a =? index b) && Nat.eqb (ctx_oid (ctx a)) (ctx_oid (ctx b))
  && Nat.eqb (task a) (task b).

(** The attributes of the cog that the commands read and write:
    [self.tasks] (the list of in-flight tasks, a deque kept by the
    [Feature] base class, oldest first) and [self.jsk.hidden]. *)
Record Cog : Type := mk_Cog {
  tasks : list CommandTask;
  jsk_hidden : bool
}.

(** A command body: it runs from a cog state, ends normally or by an
    exception, leaves a cog state and a trace of framework calls. *)
Definition Cmd (A : Type) : Type := Cog -> Completion A * Cog * list Effect.

Definition ret {A} (a : A) : Cmd A := fun s => (Returned a, s, []).

Definition cmd_bind {A B} (c : Cmd A) (k : A -> Cmd B) : Cmd B :=
  fun s =>
    match c s with
    | (Returned a, s1, out1) =>
        let '(r, s2, out2) := k a s1 in (r, s2, (out1 ++ out2)%list)
    | (Raised e, s1, out1) => (Raised e, s1, out1)
    end.

Declare Scope cmd_scope.
Delimit Scope cmd_scope with cmd.
Notation "x <- c ;; k" := (cmd_bind c (fun x => k))
  (at level 61, c at next level, right associativity) : cmd_scope.
Notation "c ;; k" := (cmd_bind c (fun _ => k))
  (at level 61, right associativity) : cmd_scope.
Local Open Scope cmd_scope.

Definition raise {A} (e : Exc) : Cmd A := fun s => (Raised e, s, []).
Definition emit (ev : Effect) : Cmd unit := fun s => (Returned tt, s, [ev]).
Definition get_tasks : Cmd (list CommandTask) := fun s => (Returned (tasks s), s, []).
Definition set_tasks (l : list CommandTask) : Cmd unit :=
  fun s => (Returned tt, {| tasks := l; jsk_hidden := jsk_hidden s |}, []).
Definition get_hidden : Cmd bool := fun s => (Returned (jsk_hidden s), s, []).
Definition set_hidden (b : bool) : Cmd unit :=
  fun s => (Returned tt, {| tasks := tasks s; jsk_hidden := b |}, []).

(** [await ctx.send(content)]. *)
Definition ctx_send (content : string) : Cmd unit := emit (CtxSend content).

(** [for x in xs: body(x)]. *)
Fixpoint for_each {A} (xs : list A) (body : A -> Cmd unit) : Cmd unit :=
  match xs with
  | [] => ret tt
  | x :: rest => body x ;; for_each rest body
  end.

(** [discord.utils.get(iterable, index=v)]: the first element whose
    [index] attribute equals [v], or [None]. *)
Definition utils_get_index (iterable : list CommandTask) (v : Z) : option CommandTask :=
  find (fun elem => index elem =? v) iterable.

(** [deque.remove(value)]: drops the first element equal to [value];
    [None] stands for the [ValueError] of a missing value. *)
Fixpoint deque_remove (l : list CommandTask) (value : CommandTask)
  : option (list CommandTask) :=
  match l with
  | [] => None
  | x :: rest =>
      if CommandTask_eqb x value then Some rest
      else option_map (cons x) (deque_remove rest value)
  end.

(** [deque.pop()]: takes the rightmost element; [None] stands for the
    [IndexError] of an empty deque. *)
Fixpoint deque_pop (l : list CommandTask) : option (CommandTask * list CommandTask) :=
  match l with
  | [] => None
  | [x] => Some (x, [])
  | x :: rest =>
      match deque_pop rest with
      | Some (y, rest') => Some (y, x :: rest')
      | None => None
      end
  end.

(** The text shared by the listing and the cancellation reply:
    [f"{task.index}: `{task.ctx.command.qualified_name}`, invoked at
    {task.ctx.message.created_at.strftime('%Y-%m-%d %H:%M:%S')} UTC"]. *)
Definition task_line (t : CommandTask) : string :=
  str_int (index t) ++ ": `" ++ command_qualified_name (ctx t) ++ "`, invoked at "
  ++ strftime_ymd_hms (message_created_at (ctx t)) ++ " UTC".

(** [jsk hide]. *)
Definition jsk_hide (c : Context) : Cmd unit :=
  hidden <- get_hidden ;;
  if hidden then ctx_send "Jishaku is already hidden."
  else
    set_hidden true ;;
    ctx_send "Jishaku is now hidden.".

(** [jsk show]. *)
Definition jsk_show (c : Context) : Cmd unit :=
  hidden <- get_hidden ;;
  if negb hidden then ctx_send "Jishaku is already visible."
  else
    set_hidden false ;;
    ctx_send "Jishaku is now visible.".

(** [jsk tasks]. *)
Definition jsk_tasks (c : Context) : Cmd unit :=
  ts <- get_tasks ;;
  match ts with
  | [] => ctx_send "No currently running tasks."
  | _ =>
      let paginator := {| max_size := 1985; lines := [] |} in
      let paginator := fold_left (fun p t => add_line p (task_line t)) ts paginator in
      let interface := {| paginator := paginator; owner := author_id c |} in
      emit (InterfaceSendTo interface)
  end.

(** The [index] argument of [jsk cancel], a [typing.Union[int, str]]. *)
Inductive IndexArg : Type :=
| IdxInt (i : Z)
| IdxStr (s : string).

(** [index == "~"]: an [int] never equals a [str]. *)
Definition is_tilde (a : IndexArg) : bool :=
  match a with
  | IdxInt _ => false
  | IdxStr s => String.eqb s "~"
  end.

(** The only author [jsk cancel] listens to. *)
Definition cancel_author : Z := 924589827586928730.

(** [jsk cancel]. *)
Definition jsk_cancel (c : Context) (idx : IndexArg) : Cmd unit :=
  if negb (author_id c =? cancel_author) then ret tt
  else
    ts <- get_tasks ;;
    match ts with
    | [] => ctx_send "No tasks to cancel."
    | _ =>
        if is_tilde idx then
          let task_count := Z.of_nat (List.length ts) in
          for_each ts (fun t => emit (TaskCancel (task t))) ;;
          set_tasks [] ;;
          ctx_send ("Cancelled " ++ str_int task_count ++ " tasks.")
        else
          match idx with
          | IdxStr _ =>
              raise (BadArgument ("Literal for " ++ dquote ++ "index" ++ dquote
                                  ++ " not recognized."))
          | IdxInt i =>
              found <-
                (if i =? -1 then
                   match deque_pop ts with
                   | Some (t, rest) => set_tasks rest ;; ret (Some t)
                   | None => raise (IndexError "pop from an empty deque")
                   end
                 else
                   match utils_get_index ts i with
                   | Some t =>
                       match deque_remove ts t with
                       | Some rest => set_tasks rest ;; ret (Some t)
                       | None => raise (ValueError "deque.remove(x): x not in deque")
                       end
                   | None => ret None
                   end) ;;
              match found with
              | None => ctx_send "Unknown task."
              | Some t =>
                  emit (TaskCancel (task t)) ;;
                  ctx_send ("Cancelled task " ++ task_line t)
              end
          end
    end.

(** *** The status brief *)

(** Outcome of a [psutil] query: a value, or [psutil.AccessDenied]. *)
Inductive access (A : Type) : Type :=
| Granted (a : A)
| AccessDenied.
Arguments Granted {A} a.
Arguments AccessDenied {A}.

(** The fields of [proc.memory_full_info()] that are printed. *)
Record MemoryInfo : Type := mk_MemoryInfo {
  rss : Z;
  vms : Z;
  uss : Z
}.

(** A [psutil.Process]: what each query of the brief yields. *)
Record Process : Type := mk_Process {
  memory_full_info : access MemoryInfo;
  proc_name : access string;
  proc_pid : Z;
  num_threads : access Z
}.

(** Everything the bare [jsk] command reads: the interpreter and the
    installed distributions, the cog's two load times (already taken
    through [.timestamp()]), [psutil] ([None] when its import failed,
    else the outcome of [psutil.Process()]), and the bot;
    [bot_latency_rounded] is the text of
    [round(self.bot.latency * 100, 2)].  [bot_roles] and
    [bot_channels] are [len(self.bot.roles)] and
    [len(self.bot.channels)]: discord.py's own [Client], [Bot] and
    [AutoShardedBot] define neither attribute, so each is [None] unless
    the bot's class ([bot_class_name]) supplies it. *)
Record Env : Type := mk_Env {
  sys_version : string;
  package_version : string -> option string;
  discord_version : string;
  discord_version_info : Z * Z * Z;
  packages_distributions : list (string * list string);
  distribution_files : string -> option (list (list string));
  load_time_timestamp : float;
  start_time_timestamp : float;
  psutil : option (access Process);
  bot_is_auto_sharded : bool;
  bot_shards : list Z;
  bot_shard_count : option Z;
  bot_shard_id : option Z;
  bot_class_name : string;
  bot_guilds : nat;
  bot_users : nat;
  bot_roles : option nat;
  bot_channels : option nat;
  connection_max_messages : option Z;
  connection_guild_subscriptions : bool;
  intents_presences : bool;
  intents_members : bool;
  bot_user_avatar : option string;
  bot_latency_rounded : string
}.

(** [str(x)] for an [Optional[str]]. *)
Definition str_opt (x : option string) : string :=
  match x with
  | Some s => s
  | None => "None"
  end.

(** [d[key]] on a dictionary kept as an association list. *)
Fixpoint dict_getitem (d : list (string * list string)) (key : string)
  : Completion (list string) :=
  match d with
  | [] => Raised (KeyError key)
  | (k, v) :: rest => if String.eqb k key then Returned v else dict_getitem rest key
  end.

(** [file.parts == ('discord', '__init__.py')]. *)
Definition is_discord_init (parts : list string) : bool :=
  match parts with
  | [a; b] => String.eqb a "discord" && String.eqb b "__init__.py"
  | _ => false
  end.

(** [tuple >= (1, 5, 0)] on the leading three fields of
    [discord.version_info]; on a tie the longer tuple is the larger. *)
Definition version_at_least (v : Z * Z * Z) (major minor micro : Z) : bool :=
  let '(a, b, c) := v in
  (major <? a)
  || ((a =? major) && ((minor <? b) || ((b =? minor) && (micro <=? c)))).

(** The emoji the brief opens most of its lines with. *)
Definition arrow : string := "<a:right_abrutal:930507586145488976>".

Section Status.

Variable m_log : float -> float.
Variable env : Env.

(** The list comprehension over [packages_distributions()['discord']]:
    the distributions that ship [discord/__init__.py]. *)
Fixpoint vending (dists : list string) : Completion (list string) :=
  match dists with
  | [] => Returned []
  | dist :: rest =>
      match distribution_files env dist with
      | None => Raised (TypeError "'NoneType' object is not iterable")
      | Some files =>
          (kept <- vending rest ;;
           Returned (if existsb is_discord_init files then dist :: kept else kept))%py
      end
  end.

Definition dist_version (distributions : list string) : string :=
  match distributions with
  | first :: _ =>
      arrow ++ first ++ " Version is `v" ++ str_opt (package_version env first) ++ "`"
  | [] => "unknown `" ++ discord_version env ++ "`"
  end.

(** The opening entry of [summary]: four adjacent f-strings. *)
Definition summary_head (distributions : list string) : string :=
  (arrow ++ "Python Version is `v" ++ sys_version env
   ++ "` <:python:928561050339667978>" ++ nl)
  ++ (arrow ++ "**Jishaku Version is `v" ++ str_opt (package_version env "jishaku")
      ++ "` <:id_em:928569034847428618> " ++ nl ++ " " ++ dist_version distributions
      ++ " <a:emoji_Discord:942656688949977148>" ++ nl ++ nl)
  ++ (arrow ++ "Module was loaded <t:" ++ format_f 0 (load_time_timestamp env)
      ++ ":R>. <a:dia:928560211847962626>" ++ nl)
  ++ (arrow ++ "Cog was loaded <t:" ++ format_f 0 (start_time_timestamp env)
      ++ ":R>.** <a:dia:928560211847962626>" ++ nl).

(** The first inner [try]: the memory line, or nothing on
    [AccessDenied]; an exception of [natural_size] is not caught. *)
Definition memory_lines (proc : Process) : Completion (list string) :=
  match memory_full_info proc with
  | Granted mem =>
      (physical <- natural_size m_log (rss mem) ;;
       virtual <- natural_size m_log (vms mem) ;;
       unique <- natural_size m_log (uss mem) ;;
       Returned ["Using " ++ physical ++ " physical memory and "
                 ++ virtual ++ " virtual memory, "
                 ++ unique ++ " of which unique to this process."])%py
  | AccessDenied => Returned []
  end.

(** The second inner [try]: the process line, or nothing when either
    query is denied. *)
Definition process_lines (proc : Process) : list string :=
  match proc_name proc, num_threads proc with
  | Granted name, Granted thread_count =>
      ["Running on PID " ++ str_int (proc_pid proc) ++ " (`" ++ name ++ "`) with "
       ++ str_int thread_count ++ " thread(s)."]
  | _, _ => []
  end.

(** The [if psutil:] block. *)
Definition psutil_lines : Completion (list string) :=
  match psutil env with
  | None => Returned []
  | Some (Granted proc) =>
      (mem <- memory_lines proc ;;
       Returned (mem ++ process_lines proc ++ [""])%list)%py
  | Some AccessDenied =>
      Returned
        ["psutil is installed, but this process does not have high enough access rights "
         ++ "to query process information." ++ nl;
         ""]
  end.

(** [len(self.bot.<name>)] for an attribute the bot may lack. *)
Definition bot_len (name : string) (value : option nat) : Completion nat :=
  match value with
  | Some n => Returned n
  | None =>
      Raised (AttributeError ("'" ++ bot_class_name env ++ "' object has no attribute '"
                              ++ name ++ "'"))
  end.

(** [cache_summary]: the four counts are read left to right; a bot
    without [roles] or [channels] ends the command here. *)
Definition cache_summary : Completion string :=
  (roles <- bot_len "roles" (bot_roles env) ;;
   channels <- bot_len "channels" (bot_channels env) ;;
   Returned
     (arrow ++ " **Bot Total Guilds `" ++ str_int (Z.of_nat (bot_guilds env))
      ++ "`guilds. <a:partner:928740251038535771> " ++ nl
      ++ arrow ++ " Bot Total Users `" ++ str_int (Z.of_nat (bot_users env))
      ++ "`users. <:members:928563309786050561>" ++ nl
      ++ arrow ++ " Bot Total roles `" ++ str_int (Z.of_nat roles)
      ++ "`roles. <a:roles_:928563417667731458>" ++ nl
      ++ arrow ++ " Bot Total Channel `" ++ str_int (Z.of_nat channels)
      ++ "`channels. <:text:928563359287234560>**"))%py.

(** The shard settings entry, around the text of [cache_summary]. *)
Definition shard_line (cache_summary : string) : string :=
  if bot_is_auto_sharded env then
    if 20 <? Z.of_nat (List.length (bot_shards env)) then
      ("This bot is automatically sharded ("
       ++ str_int (Z.of_nat (List.length (bot_shards env)))
       ++ " shards of " ++ str_opt_int (bot_shard_count env) ++ ")")
      ++ (" and can see " ++ cache_summary ++ "." ++ nl)
    else
      let shard_ids := join ", " (map str_int (bot_shards env)) in
      ("This bot is automatically sharded (Shards " ++ shard_ids
       ++ " of " ++ str_opt_int (bot_shard_count env) ++ ")")
      ++ (" and can see " ++ cache_summary ++ "." ++ nl)
  else if truthy_opt_int (bot_shard_count env) then
    ("This bot is manually sharded (Shard " ++ str_opt_int (bot_shard_id env)
     ++ " of " ++ str_opt_int (bot_shard_count env) ++ ")")
    ++ (" and can see " ++ cache_summary ++ "." ++ nl)
  else
    arrow ++ " **This bot is not sharded and can see** <a:emoji_Cross:943494534111830036> "
    ++ nl ++ cache_summary.

Definition message_cache : string :=
  if truthy_opt_int (connection_max_messages env) then
    arrow ++ "**Message cache capped at** `"
    ++ str_opt_int (connection_max_messages env) ++ "`"
  else arrow ++ "**Message cache is disabled**".

Definition intent_state (enabled : bool) : string :=
  if enabled then "`Enabled` <a:emoji_tick:943497995045994546> "
  else "`Disabled` <a:emoji_Cross:943494534111830036>".

(** The closing entry: intents from discord.py 1.5.0 on, guild
    subscriptions before. *)
Definition cache_line : string :=
  if version_at_least (discord_version_info env) 1 5 0 then
    let presence_intent :=
      arrow ++ "**Presence intent is** " ++ intent_state (intents_presences env) in
    let members_intent :=
      arrow ++ "**Pembers intent is** " ++ intent_state (intents_members env) in
    message_cache ++ " " ++ nl ++ " " ++ presence_intent ++ " " ++ nl ++ " "
    ++ members_intent
  else
    let guild_subscriptions :=
      "guild subscriptions are "
      ++ (if connection_guild_subscriptions env then "enabled" else "disabled") ++ nl in
    message_cache ++ " and " ++ guild_subscriptions ++ ".".

(** The embed of the brief, in the order of the source: the
    distributions, the [psutil] block, [cache_summary], the shard and
    cache entries, then the embed; [self.bot.user.avatar.url] fails on
    a bot user without an avatar. *)
Definition jsk_embed : Completion Embed :=
  (listed <- dict_getitem (packages_distributions env) "discord" ;;
   distributions <- vending listed ;;
   from_psutil <- psutil_lines ;;
   cache <- cache_summary ;;
   let summary :=
     ([summary_head distributions; ""] ++ from_psutil
      ++ [shard_line cache; cache_line])%list in
   match bot_user_avatar env with
   | None => Raised (AttributeError "'NoneType' object has no attribute 'url'")
   | Some url =>
       Returned
         {| title := "Jishaku By Harsh !!";
            description := join nl summary;
            color := 3092790;
            thumbnail_url := url;
            footer_text :=
              "Average websocket latency: " ++ bot_latency_rounded env ++ "ms";
            footer_icon_url := url |}
   end)%py.

(** The bare [jsk] command: build the embed, reply with it. *)
Definition jsk (c : Context) : Cmd unit :=
  match jsk_embed with
  | Returned em => emit (CtxReply em false)
  | Raised e => raise e
  end.

End Status.

End RootCommand.

(** ** [Dropdown]: the promotional select menu *)
Module Dropdown.
Import Py Discord.

(** [discord.SelectOption(label=..., description=..., emoji=...)]. *)
Record SelectOption : Type := mk_SelectOption {
  label : string;
  option_description : string;
  emoji : string
}.

(** The [discord.ui.Select] state: what [__init__] passes up, and
    [values], the options the user picked last. *)
Record Dropdown : Type := mk_Dropdown {
  custom_id : string;
  placeholder : string;
  min_values : Z;
  max_values : Z;
  options : list SelectOption;
  values : list string
}.

(** [Dropdown.__init__]. *)
Definition init : Dropdown :=
  let options :=
    [ {| label := "CUSTOM BOT";
         option_description := "Choose your favourite owner";
         emoji := "<a:CROWN:929105520080609310>" |} ] in
  {| custom_id := "CUSTOM BOT";
     placeholder := "Want To Buy YoUr Own Bot ?";
     min_values := 1;
     max_values := 1;
     options := options;
     values := [] |}.

(** The [discord.Interaction] handed to a callback. *)
Record Interaction : Type := mk_Interaction {
  interaction_id : Z;
  user_id : Z;
  selected : list string
}.

Definition promotion : string :=
  "**DM <@924589827586928730> TO BUY YOUR OWN CUSTOM BOT OK !! " ++ nl
  ++ " PRICE 1.5K FOR BOT AND AFTER 1 MONTH 800 INR PER MONTH HOSTING CHARGE**".

(** [Dropdown.callback]. *)
Definition callback (self : Dropdown) (interaction : Interaction) : list Effect :=
  [ResponseSendMessage promotion true].

End Dropdown.

(** * Properties of string containment *)
Module StringFacts.
Import Py.

Lemma append_assoc (a b c : string) : (a ++ b) ++ c = a ++ b ++ c.
Proof. induction a as [|x a IH]; simpl; congruence. Qed.

Lemma append_nil_r (a : string) : a ++ "" = a.
Proof. induction a as [|x a IH]; simpl; congruence. Qed.

Lemma contains_refl (s : string) : contains s s.
Proof. exists "", "". now rewrite append_nil_r. Qed.

Lemma contains_app_l (a b n : string) : contains a n -> contains (a ++ b) n.
Proof.
  intros (pre & post & ->). exists pre, (post ++ b).
  now rewrite !append_assoc.
Qed.

Lemma contains_app_r (a b n : string) : contains b n -> contains (a ++ b) n.
Proof.
  intros (pre & post & ->). exists (a ++ pre), post.
  now rewrite !append_assoc.
Qed.

Lemma contains_prefix (n post : string) : contains (n ++ post) n.
Proof. now exists "", post. Qed.

Lemma contains_trans (a b c : string) : contains a b -> contains b c -> contains a c.
Proof.
  intros (p1 & q1 & ->) (p2 & q2 & ->). exists (p1 ++ p2), (q2 ++ q1).
  now rewrite !append_assoc.
Qed.

(** An entry of a joined list is part of the joined text. *)
Lemma contains_join (sep : string) (parts : list string) (e n : string) :
  In e parts -> contains e n -> contains (join sep parts) n.
Proof.
  unfold join. intros Hin Hn.
  induction parts as [|p rest IH]; [contradiction|].
  destruct rest as [|q rest'].
  - destruct Hin as [->|[]]. exact Hn.
  - change (String.concat sep (p :: q :: rest'))
      with (p ++ sep ++ String.concat sep (q :: rest')).
    destruct Hin as [->|Hin].
    + now apply contains_app_l.
    + now apply contains_app_r, contains_app_r, IH.
Qed.

Lemma prefix_app (n post : string) : String.prefix n (n ++ post) = true.
Proof.
  induction n as [|c n IH]; simpl; [now destruct post|].
  now destruct (ascii_dec c c).
Qed.

Lemma prefix_split (n h : string) :
  String.prefix n h = true -> exists post, h = n ++ post.
Proof.
  revert h. induction n as [|c n IH]; intros h H.
  - now exists h.
  - destruct h as [|d h]; simpl in H; [discriminate|].
    destruct (ascii_dec c d) as [->|]; [|discriminate].
    destruct (IH _ H) as [post ->]. now exists post.
Qed.

(** [contains_b] decides [contains]. *)
Lemma contains_b_iff (h n : string) : contains_b h n = true <-> contains h n.
Proof.
  split.
  - induction h as [|c h IH]; cbn [contains_b]; intros H.
    + rewrite orb_false_r in H. destruct (prefix_split _ _ H) as [post ->].
      apply contains_prefix.
    + apply orb_prop in H as [H|H].
      * destruct (prefix_split _ _ H) as [post ->]. apply contains_prefix.
      * apply (contains_app_r (String c "") h), IH, H.
  - intros (pre & post & ->).
    induction pre as [|c pre IH]; cbn [append contains_b].
    + destruct (n ++ post) eqn:E; cbn [contains_b]; rewrite <- E, prefix_app; reflexivity.
    + rewrite IH. apply orb_true_r.
Qed.

End StringFacts.

(** * Properties of the float arithmetic *)
Module PyFloatFacts.
Import Py PyFloat.

Lemma digits2_pos_size (p : positive) : digits2_pos p = Pos.size p.
Proof. induction p; simpl; congruence. Qed.

Lemma Zdigits2_log2 (p : positive) : Zdigits2 (Zpos p) = Z.log2 (Zpos p) + 1.
Proof.
  simpl Zdigits2. rewrite digits2_pos_size.
  destruct p; simpl; try reflexivity; now rewrite Pos.add_1_r.
Qed.

Lemma Zdigits2_nonneg (m : Z) : 0 <= Zdigits2 m.
Proof. destruct m; simpl; lia. Qed.

(** [Zdigits2] is the bit length. *)
Lemma Zdigits2_le_iff (m n : Z) :
  0 <= m -> 0 <= n -> (Zdigits2 m <= n <-> m < 2 ^ n).
Proof.
  intros Hm Hn. destruct m as [|p|p]; [| |lia].
  - simpl. split; intros _; [apply Z.pow_pos_nonneg|]; lia.
  - rewrite Zdigits2_log2.
    pose proof (Z.log2_lt_pow2 (Zpos p) n ltac:(lia)). lia.
Qed.

Lemma Zdigits2_succ (m : Z) : 0 <= m -> Zdigits2 (m + 1) <= Zdigits2 m + 1.
Proof.
  intros Hm. pose proof (Zdigits2_nonneg m) as Hd.
  apply Zdigits2_le_iff; [lia | lia |].
  assert (m < 2 ^ Zdigits2 m) by (apply Zdigits2_le_iff; lia).
  rewrite Z.pow_add_r by lia. lia.
Qed.

Lemma shr_1_bound (r : shr_record) :
  0 <= shr_m r -> 0 <= shr_m (shr_1 r) /\ 2 * shr_m (shr_1 r) <= shr_m r.
Proof.
  destruct r as [m b c]. simpl. intros Hm.
  destruct m as [|[p|p|]|p]; simpl; lia.
Qed.

Lemma iter_shr_1_bound (p : positive) (r : shr_record) :
  0 <= shr_m r ->
  0 <= shr_m (iter_pos shr_1 p r)
  /\ shr_m (iter_pos shr_1 p r) * 2 ^ Zpos p <= shr_m r.
Proof.
  revert r. induction p as [p IH|p IH|]; intros r Hr; simpl iter_pos.
  - destruct (shr_1_bound r Hr) as [H1 H2].
    destruct (IH _ H1) as [H3 H4]. destruct (IH _ H3) as [H5 H6].
    split; [assumption|].
    replace (Zpos p~1) with (Zpos p + Zpos p + 1) by lia.
    rewrite !Z.pow_add_r by lia. change (2 ^ 1) with 2.
    assert (0 < 2 ^ Zpos p) by (apply Z.pow_pos_nonneg; lia). nia.
  - destruct (IH _ Hr) as [H3 H4]. destruct (IH _ H3) as [H5 H6].
    split; [assumption|].
    replace (Zpos p~0) with (Zpos p + Zpos p) by lia.
    rewrite !Z.pow_add_r by lia.
    assert (0 < 2 ^ Zpos p) by (apply Z.pow_pos_nonneg; lia). nia.
  - destruct (shr_1_bound r Hr) as [H1 H2]. change (2 ^ 1) with 2. lia.
Qed.

(** A significand and exponent whose value stays below [2 ^ K]. *)
Definition below (K m e : Z) : Prop :=
  0 <= m /\ Zdigits2 m + e <= K /\ e <= K - prec.

Lemma shr_record_of_loc_m (m : Z) (l : location) : shr_m (shr_record_of_loc m l) = m.
Proof. destruct l as [|[]]; reflexivity. Qed.

Lemma shr_fexp_below (K m e : Z) (l : location) :
  -1021 <= K -> below K m e ->
  below K (shr_m (fst (shr_fexp prec emax m e l))) (snd (shr_fexp prec emax m e l)).
Proof.
  intros HK (Hm & Hd & He). unfold shr_fexp, shr.
  set (k := fexp prec emax (Zdigits2 m + e) - e).
  assert (Hk : k = Z.max (Zdigits2 m + e - 53) (-1074) - e) by reflexivity.
  pose proof (Zdigits2_nonneg m) as Hd0.
  destruct k as [|p|p] eqn:Ek; simpl fst; simpl snd;
    try (rewrite shr_record_of_loc_m; repeat split; assumption).
  pose proof (iter_shr_1_bound p (shr_record_of_loc m l)) as Hb.
  rewrite shr_record_of_loc_m in Hb. destruct (Hb Hm) as [H1 H2].
  set (m1 := shr_m (iter_pos shr_1 p (shr_record_of_loc m l))) in *.
  unfold below, prec in *. split; [assumption|]. split; [|lia].
  assert (Hlt : m < 2 ^ Zdigits2 m) by (apply Zdigits2_le_iff; lia).
  destruct (Z_lt_le_dec (Zdigits2 m) (Zpos p)) as [Hs|Hs].
  - assert (2 ^ Zdigits2 m <= 2 ^ Zpos p) by (apply Z.pow_le_mono_r; lia).
    assert (0 < 2 ^ Zpos p) by (apply Z.pow_pos_nonneg; lia).
    assert (m1 = 0) by nia. rewrite H3. simpl. lia.
  - assert (Zdigits2 m1 <= Zdigits2 m - Zpos p); [|lia].
    apply Zdigits2_le_iff; [lia | lia |].
    assert (0 < 2 ^ Zpos p) by (apply Z.pow_pos_nonneg; lia).
    assert (2 ^ Zdigits2 m = 2 ^ (Zdigits2 m - Zpos p) * 2 ^ Zpos p)
      by (rewrite <- Z.pow_add_r by lia; f_equal; lia).
    nia.
Qed.

Lemma round_nearest_even_bound (m : Z) (l : location) :
  m <= round_nearest_even m l <= m + 1.
Proof.
  destruct l as [|[]]; simpl; try lia.
  destruct (Z.even m); lia.
Qed.

(** Rounding a value below [2 ^ 1023] never overflows. *)
Lemma binary_round_aux_no_overflow (K : Z) (s : bool) (m e : Z) (l : location) :
  -1021 <= K <= 1023 -> below K m e ->
  match binary_round_aux prec emax s m e l with
  | S754_zero _ | S754_finite _ _ _ => True
  | _ => False
  end.
Proof.
  intros HK Hb. unfold binary_round_aux.
  pose proof (shr_fexp_below K m e l ltac:(lia) Hb) as H1.
  destruct (shr_fexp prec emax m e l) as [mrs1 e1]. simpl in H1.
  set (m2 := round_nearest_even (shr_m mrs1) (loc_of_shr_record mrs1)).
  assert (H2 : below (K + 1) m2 e1).
  { destruct H1 as (Hm & Hd & He).
    pose proof (round_nearest_even_bound (shr_m mrs1) (loc_of_shr_record mrs1)) as Hr.
    fold m2 in Hr. unfold below, prec in *. split; [lia|]. split; [|lia].
    assert (m2 = shr_m mrs1 \/ m2 = shr_m mrs1 + 1) as [->| ->] by lia; [lia|].
    pose proof (Zdigits2_succ _ Hm). lia. }
  pose proof (shr_fexp_below (K + 1) m2 e1 loc_Exact ltac:(lia) H2) as H3.
  destruct (shr_fexp prec emax m2 e1 loc_Exact) as [mrs2 e2]. simpl in H3.
  destruct H3 as (Hm & Hd & He). unfold prec in *.
  destruct (shr_m mrs2) as [|p|p]; [exact I | | lia].
  replace (e2 <=? emax - 53) with true; [exact I|].
  symmetry. apply Z.leb_le. unfold emax. lia.
Qed.

(** [a / b] on positive [int]s below [2 ** 1023] always yields a
    finite double. *)
Lemma int_truediv_returns (a b : Z) :
  0 < a < 2 ^ 1023 -> 0 < b ->
  exists v, int_truediv a b = Returned v /\ is_number v = true.
Proof.
  intros Ha Hb. unfold int_truediv.
  replace (b =? 0) with false by (symmetry; apply Z.eqb_neq; lia).
  replace (a =? 0) with false by (symmetry; apply Z.eqb_neq; lia).
  replace (a <? 0) with false by (symmetry; apply Z.ltb_ge; lia).
  replace (b <? 0) with false by (symmetry; apply Z.ltb_ge; lia).
  rewrite !Z.abs_eq by lia. simpl xorb.
  unfold SFdiv_core_binary.
  set (e' := Z.min (fexp prec emax (Zdigits2 a + 0 - (Zdigits2 b + 0))) (0 - 0)).
  assert (He' : e' <= 0) by (unfold e'; lia).
  set (m' := match 0 - 0 - e' with
             | 0 => a
             | Z.pos _ => Z.shiftl a (0 - 0 - e')
             | Z.neg _ => 0
             end).
  assert (Hm' : m' = a * 2 ^ (- e')).
  { unfold m'. replace (0 - 0 - e') with (- e') by lia.
    destruct (- e') as [|p|p] eqn:E; [simpl; lia | | lia].
    now rewrite Z.shiftl_mul_pow2 by lia. }
  pose proof (Z.div_eucl_eq m' b ltac:(lia)) as Hdiv.
  pose proof (Z.mod_pos_bound m' b Hb) as Hmod. unfold Z.modulo in Hmod.
  destruct (Z.div_eucl m' b) as [q r]. simpl in Hdiv.
  assert (Hp : 0 < 2 ^ (- e')) by (apply Z.pow_pos_nonneg; lia).
  assert (Hq : 0 <= q <= m') by nia.
  assert (Hbelow : below 1023 q e').
  { unfold below, prec. split; [lia|]. split; [|lia].
    assert (Zdigits2 q <= 1023 - e'); [|lia].
    apply Zdigits2_le_iff; [lia | lia |].
    replace (1023 - e') with (1023 + - e') by lia.
    rewrite Z.pow_add_r by lia. nia. }
  pose proof (binary_round_aux_no_overflow 1023 false q e' (new_location b r)
                ltac:(lia) Hbelow) as Hr.
  destruct (binary_round_aux prec emax false q e' (new_location b r));
    try contradiction; eexists; split; reflexivity.
Qed.

Lemma shl_align_below (K : Z) (p : positive) (ex' : Z) :
  prec <= K -> Zpos p < 2 ^ K ->
  below K (Zpos (fst (shl_align p 0 ex'))) (snd (shl_align p 0 ex')).
Proof.
  intros HK Hp. unfold prec in HK. unfold shl_align, below, prec.
  rewrite Z.sub_0_r.
  destruct ex' as [|d|d]; cbn [fst snd].
  - split; [lia|]. split; [|lia].
    rewrite Z.add_0_r. apply Zdigits2_le_iff; lia.
  - split; [lia|]. split; [|lia].
    rewrite Z.add_0_r. apply Zdigits2_le_iff; lia.
  - split; [lia|]. split; [|lia].
    assert (Zdigits2 (Zpos (Pos.iter xO p d)) <= K + Zpos d); [|lia].
    apply Zdigits2_le_iff; [lia | lia |].
    change (Pos.iter xO p d) with (shift_pos d p).
    rewrite shift_pos_correct. change (Z.pow_pos 2 d) with (2 ^ Zpos d).
    rewrite Z.pow_add_r by lia.
    assert (0 < 2 ^ Zpos d) by (apply Z.pow_pos_nonneg; lia). nia.
Qed.

(** [float(n)] on a positive [int] below [2 ** 1023] never overflows:
    it is the nearest double. *)
Lemma float_of_int_returns (n : Z) :
  0 < n < 2 ^ 1023 ->
  float_of_int n = Returned (binary_normalize prec emax n 0 false)
  /\ is_number (binary_normalize prec emax n 0 false) = true.
Proof.
  intros Hn. unfold float_of_int.
  destruct n as [|p|p]; [lia | | lia].
  unfold binary_normalize, binary_round.
  pose proof (shl_align_below 1023 p
                (fexp prec emax (Zpos (digits2_pos p) + 0)) ltac:(unfold prec; lia)
                ltac:(lia)) as Hb.
  destruct (shl_align p 0 (fexp prec emax (Zpos (digits2_pos p) + 0))) as [mz ez].
  cbn [fst snd] in Hb.
  pose proof (binary_round_aux_no_overflow 1023 false (Zpos mz) ez loc_Exact
                ltac:(lia) Hb) as Hr.
  destruct (binary_round_aux prec emax false (Zpos mz) ez loc_Exact);
    try contradiction; split; reflexivity.
Qed.

(** A finite double divided by itself is exactly [1.0]. *)
Lemma SFdiv_self (s : bool) (m : positive) (e : Z) :
  SFdiv prec emax (S754_finite s m e) (S754_finite s m e)
  = S754_finite false 4503599627370496 (-52).
Proof.
  unfold SFdiv, SFdiv_core_binary.
  replace (Zdigits2 (Zpos m) + e - (Zdigits2 (Zpos m) + e)) with 0 by lia.
  rewrite Z.sub_diag. change (Z.min (fexp prec emax 0) 0) with (-53).
  change (0 - -53) with 53. cbv iota.
  rewrite Z.shiftl_mul_pow2 by lia.
  pose proof (Z.div_eucl_eq (Zpos m * 2 ^ 53) (Zpos m) ltac:(lia)) as Hdiv.
  pose proof (Z.mod_pos_bound (Zpos m * 2 ^ 53) (Zpos m) ltac:(lia)) as Hmod.
  unfold Z.modulo in Hmod.
  destruct (Z.div_eucl (Zpos m * 2 ^ 53) (Zpos m)) as [q r]. cbv beta iota in Hdiv.
  assert (Hq : q = 2 ^ 53).
  { revert Hdiv Hmod. generalize (2 ^ 53). intros N Hdiv Hmod.
    destruct (Z.lt_trichotomy q N) as [H|[H|H]]; [| exact H |].
    - assert (Zpos m * (q + 1) <= Zpos m * N) by (apply Z.mul_le_mono_nonneg_l; lia). lia.
    - assert (Zpos m * (N + 1) <= Zpos m * q) by (apply Z.mul_le_mono_nonneg_l; lia). lia. }
  assert (Hr : r = 0) by (subst q; lia). subst q r.
  replace (new_location (Zpos m) 0) with loc_Exact
    by (unfold new_location; destruct (Z.even (Zpos m)); reflexivity).
  destruct s; reflexivity.
Qed.
End PyFloatFacts.

(** * Properties of [natural_size] *)
Module NaturalSizeFacts.
Import Py PyFloat RootCommand PyFloatFacts.

(** The unit the specification names: [units[floor(log_1024 n)]]. *)
Definition floor_log_1024 (n : Z) : Z := Z.log2 n / 10.

Definition spec_unit (n : Z) : string :=
  nth (Z.to_nat (floor_log_1024 n)) units "".

Example spec_unit_1024 : spec_unit 1024 = "KiB".
Proof. reflexivity. Qed.

Fixpoint no_space (s : string) : bool :=
  match s with
  | EmptyString => true
  | String c rest => negb (Ascii.eqb c " ") && no_space rest
  end.

Lemma no_space_app_space (a b : string) : no_space (a ++ " " ++ b) = false.
Proof.
  change (" " ++ b) with (String " " b).
  induction a as [|c a IH]; simpl; [reflexivity|].
  rewrite IH. apply andb_false_r.
Qed.

(** The text after the last space determines the unit. *)
Lemma last_word_unique (a a' u u' : string) :
  no_space u = true -> no_space u' = true ->
  a ++ " " ++ u = a' ++ " " ++ u' -> u = u'.
Proof.
  intros Hu Hu'. revert a'.
  induction a as [|c a IH]; intros [|c' a'] H; cbn [append] in H.
  - now injection H.
  - injection H as _ H. change (String " " u') with (" " ++ u') in H.
    rewrite H, no_space_app_space in Hu. discriminate.
  - injection H as _ H. change (String " " u) with (" " ++ u) in H.
    rewrite <- H, no_space_app_space in Hu'. discriminate.
  - injection H as _ H. eauto.
Qed.

Lemma tuple_getitem_in (t : list string) (i : Z) (u : string) :
  tuple_getitem t i = Returned u -> In u t.
Proof.
  unfold tuple_getitem.
  destruct (_ || _); [discriminate|].
  destruct (nth_error t _) eqn:E; [|discriminate].
  intros [= <-]. eapply nth_error_In, E.
Qed.

Lemma units_no_space (u : string) : In u units -> no_space u = true.
Proof.
  unfold units. simpl. intros H.
  repeat (destruct H as [<-|H]; [reflexivity|]). contradiction.
Qed.

Section Libm.

Variable m_log : float -> float.

(** Whatever [natural_size] returns ends with the entry of [units]
    that [power] selects. *)
Lemma natural_size_shape (n : Z) (s : string) :
  natural_size m_log n = Returned s ->
  exists p value u,
    natural_size_power m_log n = Returned p /\
    tuple_getitem units p = Returned u /\
    s = value ++ " " ++ u.
Proof.
  unfold natural_size.
  destruct (natural_size_power m_log n) as [p|]; simpl; [|discriminate].
  destruct (truediv n (pow_of_two_pow 10 p)) as [v|]; simpl; [|discriminate].
  destruct (tuple_getitem units p) as [u|] eqn:E; simpl; [|discriminate].
  intros [= <-]. now exists p, (format_f 2 v), u.
Qed.

(** [power] is computed from [float(n)]: two sizes with the same
    nearest double get the same [power]. *)
Lemma natural_size_power_float (n n' : Z) (x : float) :
  0 < n -> 0 < n' ->
  float_of_int n = Returned x -> float_of_int n' = Returned x ->
  natural_size_power m_log n = natural_size_power m_log n'.
Proof.
  intros Hn Hn' Hx Hx'. unfold natural_size_power, math_log, loghelper.
  replace (n <=? 0) with false by (symmetry; apply Z.leb_gt; lia).
  replace (n' <=? 0) with false by (symmetry; apply Z.leb_gt; lia).
  now rewrite Hx, Hx'.
Qed.

Lemma natural_size_spec_unit (n : Z) (value : string) :
  natural_size m_log n = Returned (value ++ " " ++ spec_unit n) ->
  In (spec_unit n) units ->
  exists p,
    natural_size_power m_log n = Returned p /\
    tuple_getitem units p = Returned (spec_unit n).
Proof.
  intros H Hin.
  destruct (natural_size_shape _ _ H) as (p & v & u & Hp & Hu & Heq).
  exists p. split; [assumption|].
  rewrite Hu. f_equal. symmetry.
  apply (last_word_unique value v); auto using units_no_space.
  eapply units_no_space, tuple_getitem_in, Hu.
Qed.

End Libm.

Example same_nearest_double : float_of_int (2 ^ 60 - 1) = float_of_int (2 ^ 60).
Proof. vm_compute. reflexivity. Qed.

Example spec_units_differ :
  spec_unit (2 ^ 60 - 1) = "PiB" /\ spec_unit (2 ^ 60) = "EiB".
Proof. split; vm_compute; reflexivity. Qed.

Example natural_size_below_power :
  natural_size log2_floor (2 ^ 60 - 1) = Returned "1.00 EiB".
Proof. vm_compute. reflexivity. Qed.

(** C9, as stated, fails for every C library: [2 ** 60 - 1] and
    [2 ** 60] have the same nearest double, hence the same [power] and
    the same unit, while [floor(log_1024)] is 5 for the first and 6 for
    the second. *)
Lemma natural_size_unit_not_floor_log :
  ~ exists m_log : float -> float,
      forall n, 1 <= n < 1024 ^ 9 ->
        exists value, natural_size m_log n = Returned (value ++ " " ++ spec_unit n).
Proof.
  intros (m_log & H).
  destruct (H (2 ^ 60 - 1)) as (v1 & H1); [vm_compute; split; congruence|].
  destruct (H (2 ^ 60)) as (v2 & H2); [vm_compute; split; congruence|].
  apply natural_size_spec_unit in H1; [|vm_compute; tauto].
  apply natural_size_spec_unit in H2; [|vm_compute; tauto].
  destruct H1 as (p1 & Hp1 & Hu1). destruct H2 as (p2 & Hp2 & Hu2).
  rewrite (natural_size_power_float m_log (2 ^ 60 - 1) (2 ^ 60)
             (S754_finite false 4503599627370496 8)) in Hp1;
    [| reflexivity | reflexivity | vm_compute; reflexivity | vm_compute; reflexivity].
  rewrite Hp2 in Hp1. injection Hp1 as <-.
  rewrite Hu2 in Hu1. vm_compute in Hu1. discriminate.
Qed.


Lemma units_getitem (p : Z) :
  0 <= p <= 8 -> tuple_getitem units p = Returned (nth (Z.to_nat p) units "").
Proof.
  intros Hp.
  assert (p = 0 \/ p = 1 \/ p = 2 \/ p = 3 \/ p = 4 \/ p = 5 \/ p = 6 \/ p = 7 \/ p = 8)
    as H by lia.
  repeat (destruct H as [->|H]; [reflexivity|]). now subst.
Qed.

Lemma scale_of_power (p : Z) : 0 <= p -> pow_of_two_pow 10 p = Int (1024 ^ p).
Proof.
  intros Hp. unfold pow_of_two_pow.
  replace (0 <=? p) with true by (symmetry; apply Z.leb_le; lia).
  now rewrite Z.pow_mul_r by lia.
Qed.

(** [math.log(n, n)] is exactly [1.0] whenever the library's
    logarithm of [float(n)] is a non-zero finite double. *)
Lemma math_log_self (m_log : float -> float) (n : Z) (x : float) :
  0 < n -> float_of_int n = Returned x -> is_finite (m_log x) = true ->
  math_log m_log n n = Returned (S754_finite false 4503599627370496 (-52)).
Proof.
  intros Hn Hx Hfin. unfold math_log, loghelper.
  replace (n <=? 0) with false by (symmetry; apply Z.leb_gt; lia).
  rewrite Hx. cbn [bind].
  destruct (m_log x) as [| | |s m e]; try discriminate.
  unfold float_truediv. cbn [is_zero]. now rewrite SFdiv_self.
Qed.

(** [power] in terms of the library's values alone: for a size below
    [1024 ** 9] it is the double-precision quotient of [log(float(n))]
    by [log(1024.0)], truncated towards zero. *)
Lemma natural_size_power_quotient (m_log : float -> float) (n : Z) :
  1 <= n < 1024 ^ 9 ->
  is_zero (m_log (binary_normalize prec emax 1024 0 false)) = false ->
  natural_size_power m_log n
  = int_of_float (SFdiv prec emax (m_log (binary_normalize prec emax n 0 false))
                    (m_log (binary_normalize prec emax 1024 0 false))).
Proof.
  intros Hn Hz. unfold natural_size_power, math_log, loghelper.
  replace (n <=? 0) with false by (symmetry; apply Z.leb_gt; lia).
  destruct (float_of_int_returns n) as [-> _].
  { split; [lia|]. apply Z.lt_trans with (1024 ^ 9); [lia|]. reflexivity. }
  change (1024 <=? 0) with false. cbv iota.
  destruct (float_of_int_returns 1024) as [-> _]; [split; reflexivity|].
  cbn [bind]. unfold float_truediv. rewrite Hz. reflexivity.
Qed.

(** C9, amended.  For every C library [m_log]:
    - [natural_size(0)] raises [ValueError];
    - [natural_size(1024)] is "1.00 KiB" as soon as [log(1024.0)] is a
      non-zero finite double;
    - for [1 <= n < 1024 ** 9], when [log(1024.0)] is not zero and the
      double-precision quotient of [log(float(n))] by [log(1024.0)],
      truncated towards zero, is a [power] in [0 .. 8], the call
      returns without raising the text "<value> <unit>" with
      [unit = units[power]] and [value] the double nearest
      [n / 1024 ** power] printed with two decimals;
    - [power] depends on [n] only through [float(n)], so sizes with the
      same nearest double share their unit. *)
Theorem natural_size_units (m_log : float -> float) :
  natural_size m_log 0 = Raised (ValueError "math domain error")
  /\ (is_finite (m_log (binary_normalize prec emax 1024 0 false)) = true ->
      natural_size m_log 1024 = Returned "1.00 KiB")
  /\ (forall n p,
        1 <= n < 1024 ^ 9 ->
        is_zero (m_log (binary_normalize prec emax 1024 0 false)) = false ->
        match SFdiv prec emax (m_log (binary_normalize prec emax n 0 false))
                (m_log (binary_normalize prec emax 1024 0 false)) with
        | S754_zero _ => p = 0
        | S754_finite s m e =>
            p = if s then - Z.shiftl (Zpos m) e else Z.shiftl (Zpos m) e
        | S754_infinity _ | S754_nan => False
        end ->
        0 <= p <= 8 ->
        exists value,
          int_truediv n (1024 ^ p) = Returned value /\
          is_number value = true /\
          natural_size m_log n
          = Returned (format_f 2 value ++ " " ++ nth (Z.to_nat p) units ""))
  /\ (forall n n' x,
        0 < n -> 0 < n' ->
        float_of_int n = Returned x -> float_of_int n' = Returned x ->
        natural_size_power m_log n = natural_size_power m_log n').
Proof.
  split; [reflexivity|]. split; [|split].
  - intros Hfin.
    unfold natural_size, natural_size_power.
    rewrite (math_log_self m_log 1024 _ ltac:(lia) eq_refl Hfin).
    reflexivity.
  - intros n p Hn Hz Hq Hrange.
    assert (Hp : natural_size_power m_log n = Returned p).
    { rewrite (natural_size_power_quotient m_log n Hn Hz).
      destruct (SFdiv prec emax _ _) as [sz|si| |s m e]; cbn [int_of_float];
        try contradiction; now subst p. }
    destruct (int_truediv_returns n (1024 ^ p)) as (v & Hv & Hnum).
    + split; [lia|]. apply Z.lt_trans with (1024 ^ 9); [lia|]. reflexivity.
    + apply Z.pow_pos_nonneg; lia.
    + exists v. split; [assumption|]. split; [assumption|].
      unfold natural_size. rewrite Hp. simpl bind.
      rewrite scale_of_power by lia. simpl truediv.
      rewrite Hv. simpl bind. now rewrite units_getitem.
  - apply natural_size_power_float.
Qed.

Lemma natural_size_units_witness :
  natural_size log2_floor 0 = Raised (ValueError "math domain error")
  /\ natural_size log2_floor 1024 = Returned "1.00 KiB"
  /\ natural_size log2_floor 12345678 = Returned "11.77 MiB"
  /\ natural_size log2_floor 1023 = Returned "1023.00 B".
Proof.
  destruct (natural_size_units log2_floor) as (H0 & H1 & H2 & _).
  split; [exact H0|]. split; [apply H1; reflexivity|]. split.
  - destruct (H2 12345678 2) as (v & Hv & _ & Hs).
    + split; [lia | reflexivity].
    + reflexivity.
    + vm_compute. reflexivity.
    + lia.
    + rewrite Hs. vm_compute in Hv. injection Hv as <-. reflexivity.
  - destruct (H2 1023 0) as (v & Hv & _ & Hs).
    + split; [lia | reflexivity].
    + reflexivity.
    + vm_compute. reflexivity.
    + lia.
    + rewrite Hs. vm_compute in Hv. injection Hv as <-. reflexivity.
Defined.

(** The docstring's second example holds for every C library that
    puts [log(12345678) / log(1024)] between 2 and 3. *)
Example natural_size_docstring (m_log : float -> float) :
  natural_size_power m_log 12345678 = Returned 2 ->
  natural_size m_log 12345678 = Returned "11.77 MiB".
Proof.
  intros Hp. unfold natural_size. rewrite Hp. reflexivity.
Qed.

(** Past the last unit the lookup fails: with [power = 9], as the
    stand-in library gives for [2 ** 90 - 1], the call raises. *)
Example natural_size_past_units :
  natural_size log2_floor (2 ^ 90 - 1) = Raised (IndexError "tuple index out of range").
Proof. vm_compute. reflexivity. Qed.

End NaturalSizeFacts.

(** * Properties of the task and visibility commands *)
Module RootCommandFacts.
Import Py Discord RootCommand.

Lemma CommandTask_eqb_refl (t : CommandTask) : CommandTask_eqb t t = true.
Proof.
  unfold CommandTask_eqb.
  now rewrite Z.eqb_refl, !Nat.eqb_refl.
Qed.

Lemma CommandTask_eqb_index (a b : CommandTask) :
  CommandTask_eqb a b = true -> index a = index b.
Proof.
  unfold CommandTask_eqb. intros H.
  apply andb_prop in H as [H _]. apply andb_prop in H as [H _].
  now apply Z.eqb_eq.
Qed.

(** [discord.utils.get] splits the list at the first task that
    carries the index. *)
Lemma utils_get_index_some (l : list CommandTask) (i : Z) (t : CommandTask) :
  utils_get_index l i = Some t ->
  exists before after,
    l = (before ++ t :: after)%list /\ index t = i /\
    Forall (fun x => index x <> i) before.
Proof.
  unfold utils_get_index.
  induction l as [|x l IH]; simpl; [discriminate|].
  destruct (index x =? i) eqn:E.
  - intros [= ->]. exists [], l. apply Z.eqb_eq in E. auto.
  - intros H. destruct (IH H) as (b & a & -> & Hi & Hb).
    exists (x :: b), a. repeat split; auto.
    constructor; auto. now apply Z.eqb_neq.
Qed.

Lemma utils_get_index_none (l : list CommandTask) (i : Z) :
  utils_get_index l i = None <-> Forall (fun x => index x <> i) l.
Proof.
  unfold utils_get_index. split.
  - intros H. apply Forall_forall. intros x Hx.
    apply (find_none _ _ H) in Hx. now apply Z.eqb_neq.
  - induction 1 as [|x l Hx _ IH]; simpl; [reflexivity|].
    apply Z.eqb_neq in Hx. now rewrite Hx.
Qed.

Lemma utils_get_index_present (l : list CommandTask) (i : Z) :
  (exists t, In t l /\ index t = i) -> exists t, utils_get_index l i = Some t.
Proof.
  intros (t & Hin & Hi).
  destruct (utils_get_index l i) eqn:E; [eauto|].
  apply utils_get_index_none in E.
  rewrite Forall_forall in E. now apply E in Hin.
Qed.

(** [deque.remove] of a task found by its index takes out that very
    occurrence: nothing before it can compare equal. *)
Lemma deque_remove_first (before after : list CommandTask) (t : CommandTask) :
  Forall (fun x => index x <> index t) before ->
  deque_remove (before ++ t :: after) t = Some (before ++ after)%list.
Proof.
  induction 1 as [|x l Hx _ IH]; simpl.
  - now rewrite CommandTask_eqb_refl.
  - destruct (CommandTask_eqb x t) eqn:E.
    + apply CommandTask_eqb_index in E. contradiction.
    + now rewrite IH.
Qed.

Lemma deque_pop_snoc (l : list CommandTask) (t : CommandTask) :
  deque_pop (l ++ [t]) = Some (t, l).
Proof.
  induction l as [|x l IH]; simpl; [reflexivity|].
  rewrite IH. destruct (l ++ [t])%list eqn:E; [|reflexivity].
  now destruct l.
Qed.

Lemma for_each_emit {A} (xs : list A) (f : A -> Effect) (s : Cog) :
  for_each xs (fun x => emit (f x)) s = (Returned tt, s, map f xs).
Proof.
  induction xs as [|x xs IH]; simpl; [reflexivity|].
  unfold cmd_bind at 1. simpl. now rewrite IH.
Qed.

Lemma add_lines_fold (ts : list CommandTask) (f : CommandTask -> string) (p : Paginator) :
  fold_left (fun p t => add_line p (f t)) ts p
  = {| max_size := max_size p; lines := (lines p ++ map f ts)%list |}.
Proof.
  revert p. induction ts as [|t ts IH]; intros p; simpl.
  - rewrite app_nil_r. now destruct p.
  - rewrite IH. simpl. now rewrite <- app_assoc.
Qed.

Lemma cog_eta (s : Cog) : {| tasks := tasks s; jsk_hidden := jsk_hidden s |} = s.
Proof. now destruct s. Qed.

(** Sample tasks used to instantiate the statements below. *)
Definition sample_time : datetime :=
  {| year := 2022; month := 3; day := 9; hour := 7; minute := 5; second := 41 |}.
Definition sample_ctx (oid : nat) (name : string) : Context :=
  {| ctx_oid := oid; author_id := 77; command_qualified_name := name;
     message_created_at := sample_time |}.
Definition sample_task (i : Z) (h : TaskHandle) (name : string) : CommandTask :=
  {| index := i; ctx := sample_ctx h name; task := h |}.
Arguments sample_task i%_Z h%_nat name%_string.
Definition sample_cog : Cog :=
  {| tasks := [sample_task 4 10 "jsk py"; sample_task 7 11 "jsk sh";
               sample_task 9 12 "jsk git"];
     jsk_hidden := false |}.
(** Two tasks started by messages of different moments, the second
    by another command and on a one-digit day, hour, minute and second. *)
Definition night_roster : Cog :=
  {| tasks :=
       [{| index := 4;
           ctx := {| ctx_oid := 10; author_id := 77;
                     command_qualified_name := "jsk py";
                     message_created_at :=
                       {| year := 2021; month := 12; day := 31;
                          hour := 23; minute := 59; second := 58 |} |};
           task := 10%nat |};
        {| index := 12;
           ctx := {| ctx_oid := 11; author_id := 78;
                     command_qualified_name := "jsk sh";
                     message_created_at :=
                       {| year := 2022; month := 3; day := 9;
                          hour := 7; minute := 5; second := 1 |} |};
           task := 11%nat |}];
     jsk_hidden := true |}.
Definition owner_ctx : Context :=
  {| ctx_oid := 1; author_id := cancel_author;
     command_qualified_name := "jsk cancel"; message_created_at := sample_time |}.
Definition stranger_ctx : Context :=
  {| ctx_oid := 2; author_id := 5;
     command_qualified_name := "jsk cancel"; message_created_at := sample_time |}.

Example task_line_sample :
  task_line (sample_task 7 11 "jsk sh")
  = "7: `jsk sh`, invoked at 2022-03-09 07:05:41 UTC".
Proof. reflexivity. Qed.

(** C1. [jsk cancel i] by the accepted author, with [i <> -1] and a
    task of index [i] in the list: the list splits as
    [before ++ t :: after] around the first task [t] of index [i];
    [t], and only [t], leaves the list, the others keep their order,
    [t.task.cancel()] is the one cancellation made, and the reply
    names [t]. *)
Theorem jsk_cancel_by_index (cog : Cog) (c : Context) (i : Z) :
  author_id c = cancel_author ->
  i <> -1 ->
  (exists t, In t (tasks cog) /\ index t = i) ->
  exists before t after,
    tasks cog = (before ++ t :: after)%list /\
    index t = i /\
    Forall (fun x => index x <> i) before /\
    jsk_cancel c (IdxInt i) cog
    = (Returned tt,
       {| tasks := (before ++ after)%list; jsk_hidden := jsk_hidden cog |},
       [TaskCancel (task t); CtxSend ("Cancelled task " ++ task_line t)]).
Proof.
  intros Hauth Hneq Hex.
  destruct (utils_get_index_present _ _ Hex) as [t Hget].
  destruct (utils_get_index_some _ _ _ Hget) as (before & after & Hl & Hi & Hb).
  exists before, t, after. repeat split; auto.
  unfold jsk_cancel. rewrite Hauth, Z.eqb_refl. simpl.
  unfold cmd_bind at 1. simpl.
  destruct (tasks cog) as [|x l] eqn:Ht.
  - now destruct before.
  - simpl is_tilde. cbv iota.
    apply Z.eqb_neq in Hneq. rewrite Hneq, Hget.
    rewrite Hl, deque_remove_first by (now rewrite Hi).
    reflexivity.
Qed.

Lemma jsk_cancel_by_index_witness :
  exists before t after,
    tasks sample_cog = (before ++ t :: after)%list /\
    index t = 7 /\
    Forall (fun x => index x <> 7) before /\
    jsk_cancel owner_ctx (IdxInt 7) sample_cog
    = (Returned tt,
       {| tasks := (before ++ after)%list; jsk_hidden := jsk_hidden sample_cog |},
       [TaskCancel (task t); CtxSend ("Cancelled task " ++ task_line t)]).
Proof.
  apply (jsk_cancel_by_index sample_cog owner_ctx 7).
  - reflexivity.
  - lia.
  - exists (sample_task 7 11 "jsk sh"). split; [simpl; auto | reflexivity].
Defined.

Example jsk_cancel_by_index_run :
  jsk_cancel owner_ctx (IdxInt 7) sample_cog
  = (Returned tt,
     {| tasks := [sample_task 4 10 "jsk py"; sample_task 9 12 "jsk git"];
        jsk_hidden := false |},
     [TaskCancel 11%nat;
      CtxSend "Cancelled task 7: `jsk sh`, invoked at 2022-03-09 07:05:41 UTC"]).
Proof. reflexivity. Qed.

(** C2. [jsk cancel ~] by the accepted author on a non-empty list:
    [cancel()] is called on the framework task of every listed task,
    oldest first, the list ends empty, and the reply reports how many
    tasks the list held before it was cleared. *)
Theorem jsk_cancel_all (cog : Cog) (c : Context) :
  author_id c = cancel_author ->
  tasks cog <> [] ->
  jsk_cancel c (IdxStr "~") cog
  = (Returned tt,
     {| tasks := []; jsk_hidden := jsk_hidden cog |},
     (map (fun t => TaskCancel (task t)) (tasks cog)
      ++ [CtxSend ("Cancelled " ++ str_int (Z.of_nat (List.length (tasks cog)))
                   ++ " tasks.")])%list).
Proof.
  intros Hauth Hne.
  unfold jsk_cancel. rewrite Hauth, Z.eqb_refl. simpl negb. cbv iota.
  unfold cmd_bind at 1. simpl.
  destruct (tasks cog) as [|x l] eqn:Ht; [contradiction|].
  simpl is_tilde. cbv iota.
  unfold cmd_bind at 1. rewrite for_each_emit.
  reflexivity.
Qed.

Lemma jsk_cancel_all_witness :
  jsk_cancel owner_ctx (IdxStr "~") sample_cog
  = (Returned tt, {| tasks := []; jsk_hidden := false |},
     [TaskCancel 10%nat; TaskCancel 11%nat; TaskCancel 12%nat;
      CtxSend "Cancelled 3 tasks."]).
Proof.
  apply (jsk_cancel_all sample_cog owner_ctx); [reflexivity | discriminate].
Defined.

(** C3. [jsk cancel i] by the accepted author, with [i <> -1], on a
    non-empty list that holds no task of index [i]: the only effect is
    the reply "Unknown task."; no [cancel()] is called and the cog is
    left as it was. *)
Theorem jsk_cancel_unknown (cog : Cog) (c : Context) (i : Z) :
  author_id c = cancel_author ->
  i <> -1 ->
  tasks cog <> [] ->
  (forall t, In t (tasks cog) -> index t <> i) ->
  jsk_cancel c (IdxInt i) cog = (Returned tt, cog, [CtxSend "Unknown task."]).
Proof.
  intros Hauth Hneq Hne Hall.
  unfold jsk_cancel. rewrite Hauth, Z.eqb_refl. simpl negb. cbv iota.
  unfold cmd_bind at 1. simpl.
  assert (Hget : utils_get_index (tasks cog) i = None)
    by (apply utils_get_index_none, Forall_forall, Hall).
  destruct (tasks cog) as [|x l] eqn:Ht; [contradiction|].
  simpl is_tilde. cbv iota.
  apply Z.eqb_neq in Hneq. rewrite Hneq, Hget.
  reflexivity.
Qed.

Lemma jsk_cancel_unknown_witness :
  jsk_cancel owner_ctx (IdxInt 5) sample_cog
  = (Returned tt, sample_cog, [CtxSend "Unknown task."]).
Proof.
  apply (jsk_cancel_unknown sample_cog owner_ctx 5).
  - reflexivity.
  - lia.
  - discriminate.
  - intros t [<-|[<-|[<-|[]]]]; simpl; lia.
Defined.

(** C4. [jsk cancel] by any other author returns at once: nothing is
    sent, nothing is cancelled and the cog is left as it was, whatever
    the argument and whatever the task list holds. *)
Theorem jsk_cancel_other_author (cog : Cog) (c : Context) (idx : IndexArg) :
  author_id c <> cancel_author ->
  jsk_cancel c idx cog = (Returned tt, cog, []).
Proof.
  intros Hauth. unfold jsk_cancel.
  apply Z.eqb_neq in Hauth. now rewrite Hauth.
Qed.

Lemma jsk_cancel_other_author_witness :
  jsk_cancel stranger_ctx (IdxStr "~") sample_cog = (Returned tt, sample_cog, []).
Proof.
  apply (jsk_cancel_other_author sample_cog stranger_ctx (IdxStr "~")).
  unfold cancel_author. simpl. lia.
Defined.

(** C5. [jsk tasks] never touches the cog.  On an empty list it sends
    exactly "No currently running tasks."; otherwise it hands the
    framework one paginator (page size 1985, owned by the invoking
    author) holding one line per listed task, in list order, each line
    made of the task's index, the qualified name of the command that
    started it and the time of the invoking message. *)
Theorem jsk_tasks_listing (cog : Cog) (c : Context) :
  jsk_tasks c cog
  = (Returned tt, cog,
     [match tasks cog with
      | [] => CtxSend "No currently running tasks."
      | _ :: _ =>
          InterfaceSendTo
            {| paginator :=
                 {| max_size := 1985;
                    lines :=
                      map (fun t =>
                             str_int (index t) ++ ": `"
                             ++ command_qualified_name (ctx t) ++ "`, invoked at "
                             ++ strftime_ymd_hms (message_created_at (ctx t))
                             ++ " UTC")
                          (tasks cog) |};
               owner := author_id c |}
      end]).
Proof.
  unfold jsk_tasks, cmd_bind, get_tasks.
  destruct (tasks cog) as [|x l] eqn:Ht; [reflexivity|].
  rewrite (add_lines_fold (x :: l) task_line). reflexivity.
Qed.

Lemma jsk_tasks_listing_witness :
  jsk_tasks stranger_ctx night_roster
  = (Returned tt, night_roster,
     [InterfaceSendTo
        {| paginator :=
             {| max_size := 1985;
                lines := ["4: `jsk py`, invoked at 2021-12-31 23:59:58 UTC";
                          "12: `jsk sh`, invoked at 2022-03-09 07:05:01 UTC"] |};
           owner := 5 |}])
  /\ jsk_tasks stranger_ctx {| tasks := []; jsk_hidden := false |}
     = (Returned tt, {| tasks := []; jsk_hidden := false |},
        [CtxSend "No currently running tasks."]).
Proof.
  split.
  - exact (jsk_tasks_listing night_roster stranger_ctx).
  - exact (jsk_tasks_listing {| tasks := []; jsk_hidden := false |} stranger_ctx).
Defined.

Example jsk_tasks_run :
  jsk_tasks stranger_ctx sample_cog
  = (Returned tt, sample_cog,
     [InterfaceSendTo
        {| paginator :=
             {| max_size := 1985;
                lines := ["4: `jsk py`, invoked at 2022-03-09 07:05:41 UTC";
                          "7: `jsk sh`, invoked at 2022-03-09 07:05:41 UTC";
                          "9: `jsk git`, invoked at 2022-03-09 07:05:41 UTC"] |};
           owner := 5 |}]).
Proof. reflexivity. Qed.

(** C6. [jsk hide]: when the flag is already set the reply is
    "Jishaku is already hidden." and the cog is left as it was (the
    flag stays set); when it is clear the flag becomes set, the task
    list is kept, and the reply is "Jishaku is now hidden.". *)
Theorem jsk_hide_flag (cog : Cog) (c : Context) :
  jsk_hide c cog
  = if jsk_hidden cog
    then (Returned tt, cog, [CtxSend "Jishaku is already hidden."])
    else (Returned tt, {| tasks := tasks cog; jsk_hidden := true |},
          [CtxSend "Jishaku is now hidden."]).
Proof.
  unfold jsk_hide, cmd_bind, get_hidden.
  now destruct (jsk_hidden cog).
Qed.

(** C8. [jsk cancel -1] by the accepted author on a non-empty list:
    the list splits as [front ++ [last]]; [last], whatever its index,
    leaves the list, [last.task.cancel()] is the one cancellation
    made, and the list is shorter by exactly one. *)
Theorem jsk_cancel_last (cog : Cog) (c : Context) :
  author_id c = cancel_author ->
  tasks cog <> [] ->
  exists front last,
    tasks cog = (front ++ [last])%list /\
    jsk_cancel c (IdxInt (-1)) cog
    = (Returned tt,
       {| tasks := front; jsk_hidden := jsk_hidden cog |},
       [TaskCancel (task last); CtxSend ("Cancelled task " ++ task_line last)]) /\
    Z.of_nat (List.length front) = Z.of_nat (List.length (tasks cog)) - 1.
Proof.
  intros Hauth Hne.
  destruct (exists_last Hne) as (front & last & Hl).
  exists front, last. split; [exact Hl|]. split.
  - unfold jsk_cancel. rewrite Hauth, Z.eqb_refl. simpl negb. cbv iota.
    unfold cmd_bind at 1. simpl.
    destruct (tasks cog) as [|x l] eqn:Ht; [contradiction|].
    simpl is_tilde. cbv iota. simpl Z.eqb. cbv iota.
    rewrite Hl, deque_pop_snoc. reflexivity.
  - rewrite Hl, length_app. simpl. lia.
Qed.

Lemma jsk_cancel_last_witness :
  exists front last,
    tasks sample_cog = (front ++ [last])%list /\
    jsk_cancel owner_ctx (IdxInt (-1)) sample_cog
    = (Returned tt,
       {| tasks := front; jsk_hidden := jsk_hidden sample_cog |},
       [TaskCancel (task last); CtxSend ("Cancelled task " ++ task_line last)]) /\
    Z.of_nat (List.length front) = Z.of_nat (List.length (tasks sample_cog)) - 1.
Proof.
  apply (jsk_cancel_last sample_cog owner_ctx); [reflexivity | discriminate].
Defined.

Example jsk_cancel_last_run :
  jsk_cancel owner_ctx (IdxInt (-1)) sample_cog
  = (Returned tt,
     {| tasks := [sample_task 4 10 "jsk py"; sample_task 7 11 "jsk sh"];
        jsk_hidden := false |},
     [TaskCancel 12%nat;
      CtxSend "Cancelled task 9: `jsk git`, invoked at 2022-03-09 07:05:41 UTC"]).
Proof. reflexivity. Qed.

End RootCommandFacts.

(** * Properties of the status brief *)
Module StatusFacts.
Import Py PyFloat Discord RootCommand StringFacts.

(** Split a text around a needle; both sides are compared after
    re-association. *)
Ltac split_at pre post :=
  exists pre, post; rewrite ?append_assoc; cbn [append]; reflexivity.

Ltac by_search := apply contains_b_iff; vm_compute; reflexivity.

Lemma vending_returns (env : Env) (listed : list string) :
  (forall dist, In dist listed -> distribution_files env dist <> None) ->
  exists distributions, vending env listed = Returned distributions.
Proof.
  induction listed as [|d rest IH]; intros H; simpl.
  - now exists [].
  - destruct (distribution_files env d) as [files|] eqn:E.
    + destruct IH as [kept ->]; [intros; apply H; now right|].
      simpl. eauto.
    + exfalso. apply (H d); [now left | exact E].
Qed.

Section Brief.

Variable m_log : float -> float.
Variable env : Env.

(** The memory entry of the brief. *)
Definition memory_text (physical virtual unique : string) : string :=
  "Using " ++ physical ++ " physical memory and " ++ virtual ++ " virtual memory, "
  ++ unique ++ " of which unique to this process.".

Lemma psutil_lines_returns :
  (forall proc mem,
     psutil env = Some (Granted proc) -> memory_full_info proc = Granted mem ->
     exists physical virtual unique,
       natural_size m_log (rss mem) = Returned physical /\
       natural_size m_log (vms mem) = Returned virtual /\
       natural_size m_log (uss mem) = Returned unique) ->
  exists entries,
    psutil_lines m_log env = Returned entries /\
    forall proc mem physical virtual unique,
      psutil env = Some (Granted proc) -> memory_full_info proc = Granted mem ->
      natural_size m_log (rss mem) = Returned physical ->
      natural_size m_log (vms mem) = Returned virtual ->
      natural_size m_log (uss mem) = Returned unique ->
      In (memory_text physical virtual unique) entries.
Proof.
  intros H. unfold psutil_lines.
  destruct (psutil env) as [[proc|]|] eqn:Ep.
  - unfold memory_lines.
    destruct (memory_full_info proc) as [mem|] eqn:Em.
    + destruct (H proc mem eq_refl Em) as (a & b & c & Ha & Hb & Hc).
      rewrite Ha, Hb, Hc. cbn [bind]. eexists. split; [reflexivity|].
      intros proc' mem' a' b' c' [= <-] Em' Ha' Hb' Hc'.
      rewrite Em in Em'. injection Em' as <-.
      rewrite Ha in Ha'. rewrite Hb in Hb'. rewrite Hc in Hc'.
      injection Ha' as <-. injection Hb' as <-. injection Hc' as <-.
      now left.
    + cbn [bind]. eexists. split; [reflexivity|].
      intros proc' mem' a' b' c' [= <-] Em'. rewrite Em in Em'. discriminate.
  - eexists. split; [reflexivity|]. intros; discriminate.
  - eexists. split; [reflexivity|]. intros; discriminate.
Qed.

Lemma head_module_loaded (distributions : list string) :
  contains (summary_head env distributions)
    ("Module was loaded <t:" ++ format_f 0 (load_time_timestamp env) ++ ":R>").
Proof.
  unfold summary_head.
  apply contains_app_r, contains_app_r, contains_app_l, contains_app_r.
  split_at "" (". <a:dia:928560211847962626>" ++ nl).
Qed.

Lemma head_cog_loaded (distributions : list string) :
  contains (summary_head env distributions)
    ("Cog was loaded <t:" ++ format_f 0 (start_time_timestamp env) ++ ":R>").
Proof.
  unfold summary_head.
  apply contains_app_r, contains_app_r, contains_app_r, contains_app_r.
  split_at "" (".** <a:dia:928560211847962626>" ++ nl).
Qed.

(** What the brief says about sharding, case by case. *)
Definition shard_text : string :=
  if bot_is_auto_sharded env then
    if 20 <? Z.of_nat (List.length (bot_shards env)) then
      "This bot is automatically sharded ("
      ++ str_int (Z.of_nat (List.length (bot_shards env)))
      ++ " shards of " ++ str_opt_int (bot_shard_count env) ++ ")"
    else
      "This bot is automatically sharded (Shards "
      ++ join ", " (map str_int (bot_shards env))
      ++ " of " ++ str_opt_int (bot_shard_count env) ++ ")"
  else if truthy_opt_int (bot_shard_count env) then
    "This bot is manually sharded (Shard " ++ str_opt_int (bot_shard_id env)
    ++ " of " ++ str_opt_int (bot_shard_count env) ++ ")"
  else "This bot is not sharded".

Lemma shard_line_text (cache : string) : contains (shard_line env cache) shard_text.
Proof.
  unfold shard_line, shard_text.
  destruct (bot_is_auto_sharded env).
  - destruct (20 <? _); apply contains_prefix.
  - destruct (truthy_opt_int (bot_shard_count env)); [apply contains_prefix|].
    apply contains_app_r, contains_app_l. by_search.
Qed.

(** The text of [cache_summary] on a bot that has both attributes. *)
Definition cache_text (roles channels : nat) : string :=
  arrow ++ " **Bot Total Guilds `" ++ str_int (Z.of_nat (bot_guilds env))
  ++ "`guilds. <a:partner:928740251038535771> " ++ nl
  ++ arrow ++ " Bot Total Users `" ++ str_int (Z.of_nat (bot_users env))
  ++ "`users. <:members:928563309786050561>" ++ nl
  ++ arrow ++ " Bot Total roles `" ++ str_int (Z.of_nat roles)
  ++ "`roles. <a:roles_:928563417667731458>" ++ nl
  ++ arrow ++ " Bot Total Channel `" ++ str_int (Z.of_nat channels)
  ++ "`channels. <:text:928563359287234560>**".

Lemma cache_summary_returns (roles channels : nat) :
  bot_roles env = Some roles -> bot_channels env = Some channels ->
  cache_summary env = Returned (cache_text roles channels).
Proof. intros Hr Hc. unfold cache_summary. now rewrite Hr, Hc. Qed.

(** What the brief says about the message cache. *)
Definition message_cache_text : string :=
  if truthy_opt_int (connection_max_messages env) then
    "**Message cache capped at** `" ++ str_opt_int (connection_max_messages env) ++ "`"
  else "**Message cache is disabled**".

Lemma message_cache_contains : contains (message_cache env) message_cache_text.
Proof.
  unfold message_cache, message_cache_text.
  destruct (truthy_opt_int _); apply contains_app_r, contains_refl.
Qed.

Definition setting (enabled : bool) : string :=
  if enabled then "`Enabled`" else "`Disabled`".

Lemma cache_line_message_cache : contains (cache_line env) message_cache_text.
Proof.
  unfold cache_line.
  destruct (version_at_least _ 1 5 0); apply contains_app_l, message_cache_contains.
Qed.

Lemma cache_line_intents :
  version_at_least (discord_version_info env) 1 5 0 = true ->
  contains (cache_line env) ("**Presence intent is** " ++ setting (intents_presences env))
  /\ contains (cache_line env) ("**Pembers intent is** " ++ setting (intents_members env)).
Proof.
  intros Hv. unfold cache_line. rewrite Hv. cbv zeta. split.
  - do 4 apply contains_app_r. apply contains_app_l, contains_app_r.
    destruct (intents_presences env); by_search.
  - do 8 apply contains_app_r. apply contains_app_r.
    destruct (intents_members env); by_search.
Qed.

Lemma cache_line_guild_subscriptions :
  version_at_least (discord_version_info env) 1 5 0 = false ->
  contains (cache_line env)
    ("guild subscriptions are "
     ++ (if connection_guild_subscriptions env then "enabled" else "disabled")).
Proof.
  intros Hv. unfold cache_line. rewrite Hv. cbv zeta.
  do 2 apply contains_app_r. apply contains_app_l.
  destruct (connection_guild_subscriptions env); by_search.
Qed.

End Brief.

(** A bot on discord.py 2.0 with [psutil] installed and access
    granted, and one on discord.py 1.4 without [psutil]. *)
Definition sample_process : Process :=
  {| memory_full_info := Granted {| rss := 12345678; vms := 1024; uss := 1535 |};
     proc_name := Granted "python3";
     proc_pid := 4242;
     num_threads := Granted 7 |}.

Definition modern_env : Env :=
  {| sys_version := "3.10.4";
     package_version := fun name => if String.eqb name "jishaku" then Some "2.4.0"
                                    else Some "2.0.0";
     discord_version := "2.0.0";
     discord_version_info := (2, 0, 0);
     packages_distributions := [("discord", ["discord.py"])];
     distribution_files := fun _ => Some [["discord"; "__init__.py"]];
     load_time_timestamp := binary_normalize prec emax 1646809541 0 false;
     start_time_timestamp := binary_normalize prec emax 3293619085 (-1) false;
     psutil := Some (Granted sample_process);
     bot_is_auto_sharded := true;
     bot_shards := [0; 1; 2];
     bot_shard_count := Some 3;
     bot_shard_id := None;
     bot_class_name := "HarshBot";
     bot_guilds := 12%nat;
     bot_users := 3400%nat;
     bot_roles := Some 95%nat;
     bot_channels := Some 210%nat;
     connection_max_messages := Some 1000;
     connection_guild_subscriptions := true;
     intents_presences := false;
     intents_members := true;
     bot_user_avatar := Some "https://cdn.discordapp.com/avatars/1/a.png";
     bot_latency_rounded := "4.71" |}.

(** The 21 shard ids of the crowded bot below. *)
Definition crowded_shards : list Z := map (fun k => 2200 + Z.of_nat k) (seq 0 21).

Definition crowded_env : Env :=
  {| sys_version := "3.10.4";
     package_version := fun _ => Some "2.0.0";
     discord_version := "2.0.0";
     discord_version_info := (2, 0, 0);
     packages_distributions := [("discord", ["discord.py"])];
     distribution_files := fun _ => Some [["discord"; "__init__.py"]];
     load_time_timestamp := binary_normalize prec emax 1646809541 0 false;
     start_time_timestamp := binary_normalize prec emax 1646809542 0 false;
     psutil := None;
     bot_is_auto_sharded := true;
     bot_shards := crowded_shards;
     bot_shard_count := Some 4000;
     bot_shard_id := None;
     bot_class_name := "HarshBot";
     bot_guilds := 12%nat;
     bot_users := 3400%nat;
     bot_roles := Some 95%nat;
     bot_channels := Some 310%nat;
     connection_max_messages := Some 1000;
     connection_guild_subscriptions := true;
     intents_presences := true;
     intents_members := true;
     bot_user_avatar := Some "https://cdn.discordapp.com/avatars/1/a.png";
     bot_latency_rounded := "4.71" |}.

Definition any_ctx : Context :=
  {| ctx_oid := 3; author_id := 5; command_qualified_name := "jishaku";
     message_created_at :=
       {| year := 2022; month := 3; day := 9; hour := 7; minute := 5; second := 41 |} |}.

Definition any_cog : Cog := {| tasks := []; jsk_hidden := false |}.

(** C7, as stated, fails where the code itself branches away from the
    shard ids: for an auto-sharded bot of more than 20 shards (here 21,
    with ids 2200 to 2220, on discord.py 2.0) the brief is sent, it
    gives the number of shards and the shard count, and not one of the
    shard ids occurs anywhere in its description. *)
Lemma jsk_crowded_without_shard_ids :
  exists em,
    jsk log2_floor crowded_env any_ctx any_cog
    = (Returned tt, any_cog, [CtxReply em false])
    /\ contains (description em) "This bot is automatically sharded (21 shards of 4000)"
    /\ forall id, In id (bot_shards crowded_env) ->
                  ~ contains (description em) (str_int id).
Proof.
  eexists. split; [vm_compute; reflexivity|]. split.
  - apply contains_b_iff. vm_compute. reflexivity.
  - intros id Hin Hc. apply contains_b_iff in Hc.
    vm_compute in Hin.
    repeat (destruct Hin as [<-|Hin]; [vm_compute in Hc; discriminate|]).
    contradiction.
Qed.

(** C7, amended.  Whenever the lookup of the [discord] distribution
    succeeds, the bot user has an avatar and [natural_size] returns on
    the three memory figures that [psutil] grants, the bare [jsk]
    command leaves the cog alone and replies once, with one embed whose
    description contains: both load times; the memory line whenever
    [psutil] is importable and grants access; the shard report (ids and
    count for an auto-sharded bot of at most 20 shards, number of shards
    and count beyond, id and count for a manually sharded bot, a plain
    notice otherwise); the message-cache setting; and the two intents
    from discord.py 1.5.0 on, the guild-subscription setting before.
    The bot must have the [roles] and [channels] attributes that
    [cache_summary] reads: discord.py's own classes have neither. *)
Theorem jsk_status_brief (m_log : float -> float) (env : Env) (c : Context) (cog : Cog)
    (listed : list string) (roles channels : nat) (url : string) :
  dict_getitem (packages_distributions env) "discord" = Returned listed ->
  (forall dist, In dist listed -> distribution_files env dist <> None) ->
  (forall proc mem,
     psutil env = Some (Granted proc) -> memory_full_info proc = Granted mem ->
     exists physical virtual unique,
       natural_size m_log (rss mem) = Returned physical /\
       natural_size m_log (vms mem) = Returned virtual /\
       natural_size m_log (uss mem) = Returned unique) ->
  bot_roles env = Some roles ->
  bot_channels env = Some channels ->
  bot_user_avatar env = Some url ->
  exists em,
    jsk m_log env c cog = (Returned tt, cog, [CtxReply em false]) /\
    contains (description em)
      ("Module was loaded <t:" ++ format_f 0 (load_time_timestamp env) ++ ":R>") /\
    contains (description em)
      ("Cog was loaded <t:" ++ format_f 0 (start_time_timestamp env) ++ ":R>") /\
    (forall proc mem physical virtual unique,
       psutil env = Some (Granted proc) -> memory_full_info proc = Granted mem ->
       natural_size m_log (rss mem) = Returned physical ->
       natural_size m_log (vms mem) = Returned virtual ->
       natural_size m_log (uss mem) = Returned unique ->
       contains (description em) (memory_text physical virtual unique)) /\
    contains (description em) (shard_text env) /\
    contains (description em) (message_cache_text env) /\
    (if version_at_least (discord_version_info env) 1 5 0
     then
       contains (description em)
         ("**Presence intent is** " ++ setting (intents_presences env)) /\
       contains (description em)
         ("**Pembers intent is** " ++ setting (intents_members env))
     else
       contains (description em)
         ("guild subscriptions are "
          ++ (if connection_guild_subscriptions env then "enabled" else "disabled"))).
Proof.
  intros Hd Hf Hm Hr Hc Ha.
  destruct (vending_returns env listed Hf) as [ds Hds].
  destruct (psutil_lines_returns m_log env Hm) as (pl & Hpl & Hin).
  pose proof (cache_summary_returns env roles channels Hr Hc) as Hcs.
  set (cache := cache_text env roles channels) in *.
  eexists. split.
  { unfold jsk, jsk_embed. rewrite Hd. cbn [bind]. rewrite Hds. cbn [bind].
    rewrite Hpl. cbn [bind]. rewrite Hcs. cbn [bind]. rewrite Ha. reflexivity. }
  cbn [description].
  set (summary := ([summary_head env ds; ""] ++ pl
                   ++ [shard_line env cache; cache_line env])%list).
  assert (Hhead : In (summary_head env ds) summary) by (unfold summary; cbn [Datatypes.app In]; now left).
  assert (Hshard : In (shard_line env cache) summary)
    by (unfold summary; cbn [Datatypes.app In]; right; right; apply in_or_app; right; now left).
  assert (Hcache : In (cache_line env) summary)
    by (unfold summary; cbn [Datatypes.app In]; right; right; apply in_or_app; right; right; now left).
  repeat split.
  - eapply contains_join; [exact Hhead | apply head_module_loaded].
  - eapply contains_join; [exact Hhead | apply head_cog_loaded].
  - intros proc mem a b c' Hp Hmem H1 H2 H3.
    eapply contains_join; [|apply contains_refl].
    unfold summary. cbn [Datatypes.app In]. right; right. apply in_or_app. left. eauto.
  - eapply contains_join; [exact Hshard | apply shard_line_text].
  - eapply contains_join; [exact Hcache | apply cache_line_message_cache].
  - destruct (version_at_least (discord_version_info env) 1 5 0) eqn:Hv.
    + destruct (cache_line_intents env Hv) as [H1 H2].
      split; eapply contains_join; eauto.
    + eapply contains_join; [exact Hcache|].
      now apply cache_line_guild_subscriptions.
Qed.


Lemma jsk_status_brief_witness :
  exists em,
    jsk log2_floor modern_env any_ctx any_cog
    = (Returned tt, any_cog, [CtxReply em false]) /\
    contains (description em) "Module was loaded <t:1646809541:R>" /\
    contains (description em) "Cog was loaded <t:1646809542:R>" /\
    contains (description em)
      ("Using 11.77 MiB physical memory and 1.00 KiB virtual memory, "
       ++ "1.50 KiB of which unique to this process.") /\
    contains (description em) "This bot is automatically sharded (Shards 0, 1, 2 of 3)" /\
    contains (description em) "**Message cache capped at** `1000`" /\
    contains (description em) "**Presence intent is** `Disabled`" /\
    contains (description em) "**Pembers intent is** `Enabled`".
Proof.
  destruct (jsk_status_brief log2_floor modern_env any_ctx any_cog
              ["discord.py"] 95 210 "https://cdn.discordapp.com/avatars/1/a.png")
    as (em & Hrun & Hm & Hc & Hmem & Hshard & Hcache & Hp & Hq).
  - reflexivity.
  - intros dist _. discriminate.
  - intros proc mem [= <-] [= <-].
    exists "11.77 MiB", "1.00 KiB", "1.50 KiB".
    repeat split; vm_compute; reflexivity.
  - reflexivity.
  - reflexivity.
  - reflexivity.
  - exists em. repeat split; try assumption.
    apply (Hmem sample_process {| rss := 12345678; vms := 1024; uss := 1535 |}
             "11.77 MiB" "1.00 KiB" "1.50 KiB");
      try reflexivity; vm_compute; reflexivity.
Defined.

End StatusFacts.

(** * Properties of the dropdown *)
Module DropdownFacts.
Import Py Discord Dropdown.

(** C10. Whatever is selected, and whatever the component and the
    interaction hold, the callback makes one call: an ephemeral
    response carrying the fixed promotional text. *)
Theorem callback_fixed_message (self : Dropdown) (interaction : Interaction) :
  callback self interaction
  = [ResponseSendMessage
       ("**DM <@924589827586928730> TO BUY YOUR OWN CUSTOM BOT OK !! " ++ nl
        ++ " PRICE 1.5K FOR BOT AND AFTER 1 MONTH 800 INR PER MONTH HOSTING CHARGE**")
       true].
Proof. reflexivity. Qed.

Corollary callback_independent (s1 s2 : Dropdown) (i1 i2 : Interaction) :
  callback s1 i1 = callback s2 i2.
Proof. reflexivity. Qed.

End DropdownFacts.

(** * Further properties of the task and visibility commands *)
Module TaskCommandFacts.
Import Py Discord RootCommand RootCommandFacts.

(** The state and the trace a command run leaves behind. *)
Definition state_after {A} (run : Completion A * Cog * list Effect) : Cog := snd (fst run).
Definition trace_of {A} (run : Completion A * Cog * list Effect) : list Effect := snd run.

(** How [jsk cancel] runs for the accepted author on an [int] other
    than [-1], once [discord.utils.get] has found a task. *)
Lemma jsk_cancel_int_found (cog : Cog) (c : Context) (i : Z)
    (before after : list CommandTask) (t : CommandTask) :
  author_id c = cancel_author -> i <> -1 ->
  tasks cog = (before ++ t :: after)%list -> index t = i ->
  Forall (fun x => index x <> i) before ->
  jsk_cancel c (IdxInt i) cog
  = (Returned tt,
     {| tasks := (before ++ after)%list; jsk_hidden := jsk_hidden cog |},
     [TaskCancel (task t); CtxSend ("Cancelled task " ++ task_line t)]).
Proof.
  intros Hauth Hneq Hl Hi Hb.
  assert (Hget : utils_get_index (tasks cog) i = Some t).
  { rewrite Hl. unfold utils_get_index. clear Hl.
    induction Hb as [|x l Hx _ IH]; simpl.
    - apply Z.eqb_eq in Hi. now rewrite Hi.
    - apply Z.eqb_neq in Hx. now rewrite Hx. }
  unfold jsk_cancel. rewrite Hauth, Z.eqb_refl. simpl negb. cbv iota.
  unfold cmd_bind at 1. simpl.
  destruct (tasks cog) as [|x l] eqn:Ht; [now destruct before|].
  simpl is_tilde. cbv iota.
  apply Z.eqb_neq in Hneq. rewrite Hneq, Hget.
  rewrite Hl, deque_remove_first by (now rewrite Hi).
  reflexivity.
Qed.

(** The same, when no task carries the index. *)
Lemma jsk_cancel_int_absent (cog : Cog) (c : Context) (i : Z) :
  author_id c = cancel_author -> i <> -1 ->
  Forall (fun x => index x <> i) (tasks cog) ->
  jsk_cancel c (IdxInt i) cog
  = (Returned tt, cog,
     [CtxSend match tasks cog with
              | [] => "No tasks to cancel."
              | _ :: _ => "Unknown task."
              end]).
Proof.
  intros Hauth Hneq Hall.
  apply utils_get_index_none in Hall.
  unfold jsk_cancel. rewrite Hauth, Z.eqb_refl. simpl negb. cbv iota.
  unfold cmd_bind at 1. simpl.
  destruct (tasks cog) as [|x l] eqn:Ht; [reflexivity|].
  simpl is_tilde. cbv iota.
  apply Z.eqb_neq in Hneq. now rewrite Hneq, Hall.
Qed.

(** How [jsk cancel -1] and [jsk cancel ~] run for the accepted author
    on a non-empty list. *)
Lemma jsk_cancel_pop_run (cog : Cog) (c : Context)
    (front : list CommandTask) (last : CommandTask) :
  author_id c = cancel_author ->
  tasks cog = (front ++ [last])%list ->
  jsk_cancel c (IdxInt (-1)) cog
  = (Returned tt, {| tasks := front; jsk_hidden := jsk_hidden cog |},
     [TaskCancel (task last); CtxSend ("Cancelled task " ++ task_line last)]).
Proof.
  intros Hauth Hl.
  unfold jsk_cancel. rewrite Hauth, Z.eqb_refl. simpl negb. cbv iota.
  unfold cmd_bind at 1. simpl.
  destruct (tasks cog) as [|x l] eqn:Ht; [now destruct front|].
  simpl is_tilde. cbv iota. simpl Z.eqb. cbv iota.
  rewrite Hl, deque_pop_snoc. reflexivity.
Qed.

Lemma jsk_cancel_tilde_run (cog : Cog) (c : Context) :
  author_id c = cancel_author ->
  tasks cog <> [] ->
  jsk_cancel c (IdxStr "~") cog
  = (Returned tt, {| tasks := []; jsk_hidden := jsk_hidden cog |},
     (map (fun t => TaskCancel (task t)) (tasks cog)
      ++ [CtxSend ("Cancelled " ++ str_int (Z.of_nat (List.length (tasks cog)))
                   ++ " tasks.")])%list).
Proof.
  intros Hauth Hne.
  unfold jsk_cancel. rewrite Hauth, Z.eqb_refl. simpl negb. cbv iota.
  unfold cmd_bind at 1. simpl.
  destruct (tasks cog) as [|x l] eqn:Ht; [contradiction|].
  simpl is_tilde. cbv iota.
  unfold cmd_bind at 1. rewrite for_each_emit. reflexivity.
Qed.

(** On an empty list, and on an unrecognised literal. *)
Lemma jsk_cancel_empty_run (cog : Cog) (c : Context) (idx : IndexArg) :
  author_id c = cancel_author -> tasks cog = [] ->
  jsk_cancel c idx cog = (Returned tt, cog, [CtxSend "No tasks to cancel."]).
Proof.
  intros Hauth Hempty. unfold jsk_cancel.
  rewrite Hauth, Z.eqb_refl. simpl negb. cbv iota.
  destruct cog as [ts h]. simpl in Hempty. subst ts. reflexivity.
Qed.

Lemma jsk_cancel_literal_run (cog : Cog) (c : Context) (s : string) :
  author_id c = cancel_author -> tasks cog <> [] -> s <> "~" ->
  jsk_cancel c (IdxStr s) cog
  = (Raised (BadArgument ("Literal for " ++ dquote ++ "index" ++ dquote
                          ++ " not recognized.")),
     cog, []).
Proof.
  intros Hauth Hne Hs. unfold jsk_cancel.
  rewrite Hauth, Z.eqb_refl. simpl negb. cbv iota.
  destruct cog as [[|x l] h]; [now contradiction Hne|].
  apply String.eqb_neq in Hs.
  unfold cmd_bind, get_tasks, is_tilde. cbn [tasks]. now rewrite Hs.
Qed.

(** X1. On an empty task list the accepted author always gets "No
    tasks to cancel.", whatever the argument: the emptiness test comes
    before the argument is looked at, so even a literal that would be
    rejected otherwise raises nothing. *)
Theorem jsk_cancel_nothing_to_cancel (cog : Cog) (c : Context) (idx : IndexArg) :
  author_id c = cancel_author ->
  tasks cog = [] ->
  jsk_cancel c idx cog = (Returned tt, cog, [CtxSend "No tasks to cancel."]).
Proof. exact (jsk_cancel_empty_run cog c idx). Qed.

Lemma jsk_cancel_nothing_to_cancel_witness :
  jsk_cancel owner_ctx (IdxStr "all")
    {| tasks := []; jsk_hidden := true |}
  = (Returned tt, {| tasks := []; jsk_hidden := true |},
     [CtxSend "No tasks to cancel."]).
Proof.
  apply (jsk_cancel_nothing_to_cancel _ owner_ctx (IdxStr "all")); reflexivity.
Defined.

(** X2. With tasks running, a string argument other than "~" from the
    accepted author raises [BadArgument]; nothing is sent, nothing is
    cancelled and the cog is left as it was. *)
Theorem jsk_cancel_bad_literal (cog : Cog) (c : Context) (s : string) :
  author_id c = cancel_author ->
  tasks cog <> [] ->
  s <> "~" ->
  jsk_cancel c (IdxStr s) cog
  = (Raised (BadArgument ("Literal for " ++ dquote ++ "index" ++ dquote
                          ++ " not recognized.")),
     cog, []).
Proof. exact (jsk_cancel_literal_run cog c s). Qed.

Lemma jsk_cancel_bad_literal_witness :
  jsk_cancel owner_ctx (IdxStr "all") sample_cog
  = (Raised (BadArgument ("Literal for " ++ dquote ++ "index" ++ dquote
                          ++ " not recognized.")),
     sample_cog, []).
Proof.
  apply (jsk_cancel_bad_literal sample_cog owner_ctx "all");
    [reflexivity | discriminate | discriminate].
Defined.

(** X3. Accounting, for every author, argument and cog: the tasks that
    leave the list form one block of it, the others stay in order,
    [cancel()] is called on exactly the tasks that left, in list order,
    at most one message follows the cancellations, and the visibility
    flag is untouched. *)
Theorem jsk_cancel_accounting (cog : Cog) (c : Context) (idx : IndexArg) :
  exists kept_before removed kept_after replies,
    tasks cog = (kept_before ++ removed ++ kept_after)%list /\
    tasks (state_after (jsk_cancel c idx cog)) = (kept_before ++ kept_after)%list /\
    jsk_hidden (state_after (jsk_cancel c idx cog)) = jsk_hidden cog /\
    trace_of (jsk_cancel c idx cog)
    = (map (fun t => TaskCancel (task t)) removed ++ map CtxSend replies)%list /\
    (List.length replies <= 1)%nat.
Proof.
  unfold state_after, trace_of.
  destruct (Z.eq_dec (author_id c) cancel_author) as [Hauth|Hauth].
  2:{ apply Z.eqb_neq in Hauth. unfold jsk_cancel. rewrite Hauth.
      exists (tasks cog), [], [], []. cbn. rewrite !app_nil_r. repeat split; auto. }
  destruct (tasks cog) as [|x0 l0] eqn:Ht.
  { rewrite (jsk_cancel_empty_run cog c idx Hauth Ht).
    exists [], [], [], ["No tasks to cancel."]. cbn. rewrite Ht. repeat split; auto. }
  assert (Hne : tasks cog <> []) by (rewrite Ht; discriminate).
  rewrite <- Ht.
  destruct idx as [i|s].
  - destruct (Z.eq_dec i (-1)) as [->|Hneq].
    + destruct (exists_last Hne) as (front & last & Hl).
      exists front, [last], [], ["Cancelled task " ++ task_line last].
      pose proof (jsk_cancel_pop_run cog c front last Hauth Hl) as Hrun.
      rewrite Hrun. cbn. rewrite app_nil_r. repeat split; auto.
    + destruct (utils_get_index (tasks cog) i) as [t|] eqn:Hget.
      * destruct (utils_get_index_some _ _ _ Hget) as (before & after & Hl & Hi & Hb).
        rewrite (jsk_cancel_int_found cog c i before after t Hauth Hneq Hl Hi Hb).
        exists before, [t], after, ["Cancelled task " ++ task_line t].
        cbn. repeat split; auto.
      * apply utils_get_index_none in Hget.
        rewrite (jsk_cancel_int_absent cog c i Hauth Hneq Hget), Ht.
        exists (tasks cog), [], [], ["Unknown task."].
        cbn. rewrite !app_nil_r. repeat split; auto.
  - destruct (String.eqb s "~") eqn:Hs.
    + apply String.eqb_eq in Hs. subst s.
      pose proof (jsk_cancel_tilde_run cog c Hauth Hne) as Hrun.
      rewrite Hrun.
      exists [], (tasks cog), [],
        ["Cancelled " ++ str_int (Z.of_nat (List.length (tasks cog))) ++ " tasks."].
      cbn. rewrite app_nil_r. repeat split; auto.
    + apply String.eqb_neq in Hs.
      rewrite (jsk_cancel_literal_run cog c s Hauth Hne Hs).
      exists (tasks cog), [], [], []. cbn. rewrite !app_nil_r. repeat split; auto.
Qed.


Lemma filter_other_index (l : list CommandTask) (i : Z) :
  Forall (fun x => index x <> i) l ->
  filter (fun x => negb (index x =? i)) l = l.
Proof.
  induction 1 as [|x l Hx _ IH]; simpl; [reflexivity|].
  apply Z.eqb_neq in Hx. now rewrite Hx, IH.
Qed.

Lemma unique_index_elsewhere (before after : list CommandTask) (t : CommandTask) :
  NoDup (map index (before ++ t :: after)) ->
  Forall (fun x => index x <> index t) before
  /\ Forall (fun x => index x <> index t) after.
Proof.
  rewrite map_app. simpl. intros H.
  apply NoDup_remove_2 in H.
  split; apply Forall_forall; intros x Hx Heq; apply H, in_or_app;
    [left | right]; rewrite <- Heq; now apply in_map.
Qed.

(** With distinct indices, removing the task found by its index is
    filtering the index out. *)
Lemma filter_unique_index (before after : list CommandTask) (t : CommandTask) :
  NoDup (map index (before ++ t :: after)) ->
  filter (fun x => negb (index x =? index t)) (before ++ t :: after)
  = (before ++ after)%list.
Proof.
  intros H. destruct (unique_index_elsewhere _ _ _ H) as [Hb Ha].
  rewrite filter_app. simpl. rewrite Z.eqb_refl. simpl.
  now rewrite !filter_other_index.
Qed.

(** X4. When the listed tasks carry distinct indices, [jsk cancel i] (i <> -1, a task of
    index [i] listed) leaves exactly the tasks of another index, in
    order: no task of index [i] remains, and one [cancel()] is made, on
    a listed task of index [i]. *)
Theorem jsk_cancel_unique_index (cog : Cog) (c : Context) (i : Z) :
  author_id c = cancel_author ->
  i <> -1 ->
  NoDup (map index (tasks cog)) ->
  (exists t, In t (tasks cog) /\ index t = i) ->
  tasks (state_after (jsk_cancel c (IdxInt i) cog))
  = filter (fun t => negb (index t =? i)) (tasks cog)
  /\ exists t,
       In t (tasks cog) /\ index t = i /\
       trace_of (jsk_cancel c (IdxInt i) cog)
       = [TaskCancel (task t); CtxSend ("Cancelled task " ++ task_line t)].
Proof.
  intros Hauth Hneq Hnd Hex.
  destruct (utils_get_index_present _ _ Hex) as [t Hget].
  destruct (utils_get_index_some _ _ _ Hget) as (before & after & Hl & Hi & Hb).
  rewrite (jsk_cancel_int_found cog c i before after t Hauth Hneq Hl Hi Hb).
  unfold state_after, trace_of. cbn [fst snd tasks]. split.
  - rewrite Hl in Hnd |- *. subst i. now rewrite filter_unique_index.
  - exists t. rewrite Hl. repeat split; auto. apply in_or_app. right. now left.
Qed.

Lemma jsk_cancel_unique_index_witness :
  tasks (state_after (jsk_cancel owner_ctx (IdxInt 7) sample_cog))
  = filter (fun t => negb (index t =? 7)) (tasks sample_cog)
  /\ exists t,
       In t (tasks sample_cog) /\ index t = 7 /\
       trace_of (jsk_cancel owner_ctx (IdxInt 7) sample_cog)
       = [TaskCancel (task t); CtxSend ("Cancelled task " ++ task_line t)].
Proof.
  apply (jsk_cancel_unique_index sample_cog owner_ctx 7).
  - reflexivity.
  - lia.
  - simpl. repeat constructor; simpl; intuition lia.
  - exists (sample_task 7 11 "jsk sh"). split; [simpl; auto | reflexivity].
Defined.

(** X5. Cancelling is idempotent on distinct indices: asking again for
    the index just cancelled changes nothing and cancels nothing; the
    reply is "Unknown task.", or "No tasks to cancel." when the list has
    become empty. *)
Theorem jsk_cancel_twice (cog : Cog) (c : Context) (i : Z) :
  author_id c = cancel_author ->
  i <> -1 ->
  NoDup (map index (tasks cog)) ->
  (exists t, In t (tasks cog) /\ index t = i) ->
  jsk_cancel c (IdxInt i) (state_after (jsk_cancel c (IdxInt i) cog))
  = (Returned tt, state_after (jsk_cancel c (IdxInt i) cog),
     [CtxSend match tasks (state_after (jsk_cancel c (IdxInt i) cog)) with
              | [] => "No tasks to cancel."
              | _ :: _ => "Unknown task."
              end]).
Proof.
  intros Hauth Hneq Hnd Hex.
  apply jsk_cancel_int_absent; [assumption | assumption |].
  destruct (utils_get_index_present _ _ Hex) as [t Hget].
  destruct (utils_get_index_some _ _ _ Hget) as (before & after & Hl & Hi & Hb).
  rewrite (jsk_cancel_int_found cog c i before after t Hauth Hneq Hl Hi Hb).
  unfold state_after. cbn [fst snd tasks].
  rewrite Hl in Hnd. subst i.
  destruct (unique_index_elsewhere _ _ _ Hnd) as [_ Ha].
  apply Forall_app. now split.
Qed.

Lemma jsk_cancel_twice_witness :
  jsk_cancel owner_ctx (IdxInt 7)
    (state_after (jsk_cancel owner_ctx (IdxInt 7) sample_cog))
  = (Returned tt, state_after (jsk_cancel owner_ctx (IdxInt 7) sample_cog),
     [CtxSend match tasks (state_after (jsk_cancel owner_ctx (IdxInt 7) sample_cog)) with
              | [] => "No tasks to cancel."
              | _ :: _ => "Unknown task."
              end]).
Proof.
  apply (jsk_cancel_twice sample_cog owner_ctx 7).
  - reflexivity.
  - lia.
  - simpl. repeat constructor; simpl; intuition lia.
  - exists (sample_task 7 11 "jsk sh"). split; [simpl; auto | reflexivity].
Defined.

(** X6. With distinct indices, [jsk cancel -1] is [jsk cancel] on the
    index of the last task, unless that index is [-1] itself: same final
    cog, same cancellation, same reply. *)
Theorem jsk_cancel_last_by_index (cog : Cog) (c : Context)
    (front : list CommandTask) (last : CommandTask) :
  author_id c = cancel_author ->
  NoDup (map index (tasks cog)) ->
  tasks cog = (front ++ [last])%list ->
  index last <> -1 ->
  jsk_cancel c (IdxInt (-1)) cog = jsk_cancel c (IdxInt (index last)) cog.
Proof.
  intros Hauth Hnd Hl Hneq.
  rewrite (jsk_cancel_pop_run cog c front last Hauth Hl).
  rewrite Hl in Hnd. destruct (unique_index_elsewhere _ _ _ Hnd) as [Hb _].
  rewrite (jsk_cancel_int_found cog c (index last) front [] last Hauth Hneq Hl eq_refl Hb).
  now rewrite app_nil_r.
Qed.

Lemma jsk_cancel_last_by_index_witness :
  jsk_cancel owner_ctx (IdxInt (-1)) sample_cog
  = jsk_cancel owner_ctx (IdxInt (index (sample_task 9 12 "jsk git"))) sample_cog.
Proof.
  apply (jsk_cancel_last_by_index sample_cog owner_ctx
           [sample_task 4 10 "jsk py"; sample_task 7 11 "jsk sh"]
           (sample_task 9 12 "jsk git")).
  - reflexivity.
  - simpl. repeat constructor; simpl; intuition lia.
  - reflexivity.
  - simpl. lia.
Defined.

(** Without distinct indices the two differ: [-1] takes the last task,
    the index takes the first task that carries it. *)
Example jsk_cancel_last_by_index_needs_unique :
  let cog := {| tasks := [sample_task 3 20 "jsk py"; sample_task 3 21 "jsk sh"];
                jsk_hidden := false |} in
  tasks (state_after (jsk_cancel owner_ctx (IdxInt (-1)) cog))
  = [sample_task 3 20 "jsk py"]
  /\ tasks (state_after (jsk_cancel owner_ctx (IdxInt 3) cog))
     = [sample_task 3 21 "jsk sh"].
Proof. split; reflexivity. Qed.

Lemma jsk_tasks_trace (cog : Cog) (c : Context) :
  jsk_tasks c cog
  = (Returned tt, cog,
     [match tasks cog with
      | [] => CtxSend "No currently running tasks."
      | _ :: _ =>
          InterfaceSendTo
            {| paginator := {| max_size := 1985; lines := map task_line (tasks cog) |};
               owner := author_id c |}
      end]).
Proof.
  unfold jsk_tasks, cmd_bind, get_tasks.
  destruct (tasks cog) as [|x l] eqn:Ht; [reflexivity|].
  rewrite (add_lines_fold (x :: l) task_line). reflexivity.
Qed.

(** X7. A cancelled task is gone from the next listing, and only it:
    with distinct indices, [jsk tasks] run (by anyone) after
    [jsk cancel i] lists the lines of the tasks of another index, in
    their old order, or reports that nothing runs when none is left. *)
Theorem jsk_tasks_after_cancel (cog : Cog) (c reader : Context) (i : Z) :
  author_id c = cancel_author ->
  i <> -1 ->
  NoDup (map index (tasks cog)) ->
  (exists t, In t (tasks cog) /\ index t = i) ->
  trace_of (jsk_tasks reader (state_after (jsk_cancel c (IdxInt i) cog)))
  = [match filter (fun t => negb (index t =? i)) (tasks cog) with
     | [] => CtxSend "No currently running tasks."
     | _ :: _ =>
         InterfaceSendTo
           {| paginator :=
                {| max_size := 1985;
                   lines := map task_line
                              (filter (fun t => negb (index t =? i)) (tasks cog)) |};
              owner := author_id reader |}
     end].
Proof.
  intros Hauth Hneq Hnd Hex.
  destruct (utils_get_index_present _ _ Hex) as [t Hget].
  destruct (utils_get_index_some _ _ _ Hget) as (before & after & Hl & Hi & Hb).
  rewrite (jsk_cancel_int_found cog c i before after t Hauth Hneq Hl Hi Hb).
  rewrite jsk_tasks_trace. unfold state_after, trace_of. cbn [fst snd tasks].
  rewrite Hl in Hnd |- *. subst i. now rewrite filter_unique_index.
Qed.

Lemma jsk_tasks_after_cancel_witness :
  trace_of (jsk_tasks stranger_ctx
              (state_after (jsk_cancel owner_ctx (IdxInt 7) sample_cog)))
  = [match filter (fun t => negb (index t =? 7)) (tasks sample_cog) with
     | [] => CtxSend "No currently running tasks."
     | _ :: _ =>
         InterfaceSendTo
           {| paginator :=
                {| max_size := 1985;
                   lines := map task_line
                              (filter (fun t => negb (index t =? 7)) (tasks sample_cog)) |};
              owner := author_id stranger_ctx |}
     end].
Proof.
  apply (jsk_tasks_after_cancel sample_cog owner_ctx stranger_ctx 7).
  - reflexivity.
  - lia.
  - simpl. repeat constructor; simpl; intuition lia.
  - exists (sample_task 7 11 "jsk sh"). split; [simpl; auto | reflexivity].
Defined.

(** X8. [jsk hide] and [jsk show] undo each other.  Run one after the
    other from any cog, the second never finds its work done already:
    after hide-then-show the flag is clear, after show-then-hide it is
    set, and the task list is the one they started from. *)
Theorem hide_show_compose (cog : Cog) (c : Context) :
  cmd_bind (jsk_hide c) (fun _ => jsk_show c) cog
  = (Returned tt, {| tasks := tasks cog; jsk_hidden := false |},
     [CtxSend (if jsk_hidden cog then "Jishaku is already hidden."
               else "Jishaku is now hidden.");
      CtxSend "Jishaku is now visible."])
  /\ cmd_bind (jsk_show c) (fun _ => jsk_hide c) cog
     = (Returned tt, {| tasks := tasks cog; jsk_hidden := true |},
        [CtxSend (if jsk_hidden cog then "Jishaku is now visible."
                  else "Jishaku is already visible.");
         CtxSend "Jishaku is now hidden."]).
Proof.
  destruct cog as [ts h]. destruct h; split; reflexivity.
Qed.

End TaskCommandFacts.

(** * Further properties of [natural_size] *)
Module NaturalSizeEdgeFacts.
Import Py PyFloat RootCommand PyFloatFacts NaturalSizeFacts.

Lemma shr_fexp_nonneg (m e : Z) (l : location) :
  0 <= m -> 0 <= shr_m (fst (shr_fexp prec emax m e l)).
Proof.
  intros Hm. unfold shr_fexp, shr.
  destruct (fexp prec emax (Zdigits2 m + e) - e) as [|p|p]; simpl fst;
    try (now rewrite shr_record_of_loc_m).
  apply iter_shr_1_bound. now rewrite shr_record_of_loc_m.
Qed.

(** Rounding keeps the sign it is given and never yields a NaN. *)
Lemma binary_round_aux_sign (s : bool) (m e : Z) (l : location) :
  0 <= m ->
  match binary_round_aux prec emax s m e l with
  | S754_zero s' | S754_infinity s' | S754_finite s' _ _ => s' = s
  | S754_nan => False
  end.
Proof.
  intros Hm. unfold binary_round_aux.
  pose proof (shr_fexp_nonneg m e l Hm) as H1.
  destruct (shr_fexp prec emax m e l) as [mrs1 e1]. simpl in H1.
  pose proof (round_nearest_even_bound (shr_m mrs1) (loc_of_shr_record mrs1)) as Hr.
  set (m2 := round_nearest_even (shr_m mrs1) (loc_of_shr_record mrs1)) in *.
  pose proof (shr_fexp_nonneg m2 e1 loc_Exact ltac:(lia)) as H2.
  destruct (shr_fexp prec emax m2 e1 loc_Exact) as [mrs2 e2]. simpl in H2.
  destruct (shr_m mrs2) as [|p|p]; [reflexivity | | lia].
  now destruct (e2 <=? emax - prec).
Qed.

(** A quotient of positive [int]s, when it is returned, is [+0.0] or a
    positive finite double. *)
Lemma int_truediv_positive (a b : Z) (v : float) :
  0 < a -> 0 < b -> int_truediv a b = Returned v ->
  v = S754_zero false \/ exists m e, v = S754_finite false m e.
Proof.
  intros Ha Hb. unfold int_truediv.
  replace (b =? 0) with false by (symmetry; apply Z.eqb_neq; lia).
  replace (a =? 0) with false by (symmetry; apply Z.eqb_neq; lia).
  replace (a <? 0) with false by (symmetry; apply Z.ltb_ge; lia).
  replace (b <? 0) with false by (symmetry; apply Z.ltb_ge; lia).
  rewrite !Z.abs_eq by lia. simpl xorb.
  unfold SFdiv_core_binary.
  set (m' := match 0 - 0 - _ with 0 => a | Z.pos _ => _ | Z.neg _ => 0 end).
  assert (Hm' : 0 <= m').
  { unfold m'. destruct (0 - 0 - _); [lia | | lia].
    apply Z.shiftl_nonneg. lia. }
  pose proof (Z.div_eucl_eq m' b ltac:(lia)) as Hdiv.
  pose proof (Z.mod_pos_bound m' b Hb) as Hmod. unfold Z.modulo in Hmod.
  destruct (Z.div_eucl m' b) as [q r]. cbv beta iota in Hdiv.
  assert (Hq : 0 <= q) by nia.
  match goal with
  | |- context [binary_round_aux prec emax false q ?e ?l] =>
      pose proof (binary_round_aux_sign false q e l Hq) as Hs;
      destruct (binary_round_aux prec emax false q e l) as [s'|s'| |s' m e0]
  end; try contradiction; try discriminate; subst s'; intros [= <-]; eauto.
Qed.

Lemma round_scaled_nonneg (digits : nat) (m : positive) (e : Z) :
  0 <= round_scaled digits m e.
Proof.
  unfold round_scaled.
  assert (Hs : 0 <= Zpos m * 10 ^ Z.of_nat digits)
    by (apply Z.mul_nonneg_nonneg; [lia | apply Z.pow_nonneg; lia]).
  destruct (0 <=? e) eqn:He.
  - apply Z.mul_nonneg_nonneg; [assumption | apply Z.pow_nonneg; lia].
  - apply Z.leb_gt in He.
    assert (Hd : 0 < 2 ^ (- e)) by (apply Z.pow_pos_nonneg; lia).
    assert (Hq : 0 <= Zpos m * 10 ^ Z.of_nat digits / 2 ^ (- e))
      by (apply Z.div_pos; lia).
    destruct (2 * _ ?= _); [destruct (Z.even _) | |]; lia.
Qed.

Lemma zero_pad_2_length (k : Z) :
  0 <= k < 100 -> String.length (zero_pad 2 k) = 2%nat.
Proof.
  intros Hk.
  assert (Hall : forallb (fun j => Nat.eqb (String.length (zero_pad 2 (Z.of_nat j))) 2)
                   (seq 0 100) = true) by (vm_compute; reflexivity).
  rewrite forallb_forall in Hall.
  specialize (Hall (Z.to_nat k)). rewrite Z2Nat.id in Hall by lia.
  apply Nat.eqb_eq, Hall, in_seq. lia.
Qed.

(** A non-negative number printed with two decimals: digits, a point,
    two digits. *)
Lemma format_f_2_shape (v : float) :
  v = S754_zero false \/ (exists m e, v = S754_finite false m e) ->
  exists whole frac,
    format_f 2 v = str_int whole ++ "." ++ frac /\
    0 <= whole /\ String.length frac = 2%nat.
Proof.
  intros [->|(m & e & ->)].
  - exists 0, "00". repeat split; try reflexivity; lia.
  - pose proof (round_scaled_nonneg 2 m e) as Hr.
    exists (round_scaled 2 m e / 100), (zero_pad 2 (round_scaled 2 m e mod 100)).
    split; [reflexivity|]. split.
    + apply Z.div_pos; lia.
    + apply zero_pad_2_length. apply Z.mod_pos_bound. lia.
Qed.

Section Libm.

Variable m_log : float -> float.

Lemma natural_size_nonpositive_run (n : Z) :
  n <= 0 -> natural_size m_log n = Raised (ValueError "math domain error").
Proof.
  intros Hn. unfold natural_size, natural_size_power, math_log, loghelper.
  replace (n <=? 0) with true by (symmetry; apply Z.leb_le; lia).
  reflexivity.
Qed.

(** X9. A size of zero or less is a domain error of the logarithm, for
    every C library: [natural_size] raises [ValueError] before any
    arithmetic on doubles. *)
Theorem natural_size_nonpositive (n : Z) :
  n <= 0 -> natural_size m_log n = Raised (ValueError "math domain error").
Proof. exact (natural_size_nonpositive_run n). Qed.

(** X10. Past the last unit the lookup fails: for a size below
    [2 ** 1023] whose [power] is 9 or more, the division still goes
    through and [units[power]] raises [IndexError]. *)
Theorem natural_size_past_last_unit (n p : Z) :
  1 <= n < 2 ^ 1023 ->
  natural_size_power m_log n = Returned p ->
  9 <= p ->
  natural_size m_log n = Raised (IndexError "tuple index out of range").
Proof.
  intros Hn Hp Hrange. unfold natural_size. rewrite Hp. cbn [bind].
  rewrite scale_of_power by lia. cbn [truediv].
  destruct (int_truediv_returns n (1024 ^ p)) as (v & -> & _);
    [lia | apply Z.pow_pos_nonneg; lia |].
  cbn [bind]. unfold tuple_getitem.
  replace (p <? 0) with false by (symmetry; apply Z.ltb_ge; lia).
  replace (Z.of_nat (List.length units) <=? p) with true
    by (symmetry; apply Z.leb_le; simpl; lia).
  now rewrite orb_true_r.
Qed.

(** X11. Whatever [natural_size] returns for a positive size with a
    non-negative [power] reads "<digits>.<two digits> <unit>", the unit
    being one of the nine listed. *)
Theorem natural_size_two_decimals (n p : Z) (s : string) :
  1 <= n ->
  natural_size_power m_log n = Returned p ->
  0 <= p ->
  natural_size m_log n = Returned s ->
  exists whole frac unit,
    s = str_int whole ++ "." ++ frac ++ " " ++ unit /\
    0 <= whole /\ String.length frac = 2%nat /\ In unit units.
Proof.
  intros Hn Hp Hrange. unfold natural_size. rewrite Hp. cbn [bind].
  rewrite scale_of_power by lia. cbn [truediv].
  destruct (int_truediv n (1024 ^ p)) as [v|] eqn:Hv; cbn [bind]; [|discriminate].
  destruct (tuple_getitem units p) as [u|] eqn:Hu; cbn [bind]; [|discriminate].
  intros [= <-].
  apply int_truediv_positive in Hv; [| lia | apply Z.pow_pos_nonneg; lia].
  destruct (format_f_2_shape v Hv) as (whole & frac & -> & Hw & Hf).
  exists whole, frac, u. split.
  - now rewrite !StringFacts.append_assoc.
  - repeat split; auto. eapply tuple_getitem_in, Hu.
Qed.

(** X12. Below one kibibyte, with [power = 0], the size is printed as
    it is: the number of bytes, ".00", and the unit "B". *)
Theorem natural_size_bytes (n : Z) :
  1 <= n < 1024 ->
  natural_size_power m_log n = Returned 0 ->
  natural_size m_log n = Returned (str_int n ++ ".00 B").
Proof.
  intros Hn Hp. unfold natural_size. rewrite Hp. cbn [bind].
  change (pow_of_two_pow 10 0) with (Int 1). cbn [truediv].
  assert (Hall : forallb
                   (fun j =>
                      match int_truediv (Z.of_nat j) 1 with
                      | Returned v =>
                          String.eqb (format_f 2 v) (str_int (Z.of_nat j) ++ ".00")
                      | Raised _ => false
                      end) (seq 1 1023) = true) by (vm_compute; reflexivity).
  rewrite forallb_forall in Hall.
  specialize (Hall (Z.to_nat n)). rewrite Z2Nat.id in Hall by lia.
  assert (Hin : In (Z.to_nat n) (seq 1 1023)) by (apply in_seq; lia).
  specialize (Hall Hin).
  destruct (int_truediv n 1) as [v|]; [|discriminate].
  apply String.eqb_eq in Hall. cbn [bind]. rewrite Hall.
  change (tuple_getitem units 0) with (Returned "B"). cbn [bind].
  now rewrite !StringFacts.append_assoc.
Qed.

End Libm.

Lemma natural_size_nonpositive_witness :
  natural_size log2_floor (-5) = Raised (ValueError "math domain error").
Proof. apply (natural_size_nonpositive log2_floor (-5)). lia. Defined.

Lemma natural_size_past_last_unit_witness :
  natural_size log2_floor (2 ^ 95) = Raised (IndexError "tuple index out of range").
Proof.
  apply (natural_size_past_last_unit log2_floor (2 ^ 95) 9).
  - split; [lia | reflexivity].
  - vm_compute. reflexivity.
  - lia.
Defined.

Lemma natural_size_two_decimals_witness :
  exists whole frac unit,
    "11.77 MiB" = str_int whole ++ "." ++ frac ++ " " ++ unit /\
    0 <= whole /\ String.length frac = 2%nat /\ In unit units.
Proof.
  apply (natural_size_two_decimals log2_floor 12345678 2 "11.77 MiB").
  - lia.
  - vm_compute. reflexivity.
  - lia.
  - vm_compute. reflexivity.
Defined.

Lemma natural_size_bytes_witness :
  natural_size log2_floor 1023 = Returned (str_int 1023 ++ ".00 B").
Proof.
  apply (natural_size_bytes log2_floor 1023); [lia | vm_compute; reflexivity].
Defined.

End NaturalSizeEdgeFacts.

(** * Further properties of the status brief *)
Module StatusEdgeFacts.
Import Py PyFloat Discord RootCommand StringFacts StatusFacts.

Lemma dict_getitem_missing (d : list (string * list string)) (key : string) :
  (forall k v, In (k, v) d -> k <> key) ->
  dict_getitem d key = Raised (KeyError key).
Proof.
  induction d as [|[k v] rest IH]; intros H; simpl; [reflexivity|].
  assert (Hk : k <> key) by (apply (H k v); now left).
  apply String.eqb_neq in Hk. rewrite Hk.
  apply IH. intros k' v' Hin. apply (H k' v'). now right.
Qed.

Lemma vending_none (env : Env) (listed : list string) :
  (forall dist, In dist listed ->
     exists files, distribution_files env dist = Some files
                   /\ existsb is_discord_init files = false) ->
  vending env listed = Returned [].
Proof.
  induction listed as [|d rest IH]; intros H; simpl; [reflexivity|].
  destruct (H d (or_introl eq_refl)) as (files & -> & Hf).
  rewrite IH by (intros; apply H; now right).
  cbn [bind]. now rewrite Hf.
Qed.

(** The list comprehension keeps, in order, the listed distributions
    that ship [discord/__init__.py]: the first of them heads the
    result. *)
Lemma vending_first (env : Env) (skipped rest : list string) (dist : string) :
  (forall d, In d (skipped ++ dist :: rest) -> distribution_files env d <> None) ->
  (forall d files, In d skipped -> distribution_files env d = Some files ->
     existsb is_discord_init files = false) ->
  (forall files, distribution_files env dist = Some files ->
     existsb is_discord_init files = true) ->
  exists others, vending env (skipped ++ dist :: rest)%list = Returned (dist :: others).
Proof.
  intros Hall Hskip Hdist.
  induction skipped as [|d skipped IH]; cbn [Datatypes.app vending].
  - destruct (distribution_files env dist) as [files|] eqn:E;
      [|exfalso; apply (Hall dist); [now left | exact E]].
    destruct (vending_returns env rest) as [kept ->];
      [intros; apply Hall; now right|].
    cbn [bind]. rewrite (Hdist files eq_refl). eauto.
  - destruct (distribution_files env d) as [files|] eqn:E;
      [|exfalso; apply (Hall d); [now left | exact E]].
    destruct IH as [others ->].
    + intros; apply Hall; now right.
    + intros d' f' Hin. apply Hskip. now right.
    + cbn [bind]. rewrite (Hskip d files (or_introl eq_refl) E). eauto.
Qed.

Section Brief.

Variable m_log : float -> float.
Variable env : Env.

(** The embed the command builds once every step before it succeeded. *)
Definition brief (distributions entries : list string) (cache url : string) : Embed :=
  {| title := "Jishaku By Harsh !!";
     description :=
       join nl ([summary_head env distributions; ""] ++ entries
                ++ [shard_line env cache; cache_line env])%list;
     color := 3092790;
     thumbnail_url := url;
     footer_text := "Average websocket latency: " ++ bot_latency_rounded env ++ "ms";
     footer_icon_url := url |}.

Lemma jsk_run (c : Context) (cog : Cog) (listed distributions entries : list string)
    (cache url : string) :
  dict_getitem (packages_distributions env) "discord" = Returned listed ->
  vending env listed = Returned distributions ->
  psutil_lines m_log env = Returned entries ->
  cache_summary env = Returned cache ->
  bot_user_avatar env = Some url ->
  jsk m_log env c cog
  = (Returned tt, cog, [CtxReply (brief distributions entries cache url) false]).
Proof.
  intros Hd Hv Hp Hc Ha. unfold jsk, jsk_embed.
  rewrite Hd. cbn [bind]. rewrite Hv. cbn [bind]. rewrite Hp. cbn [bind].
  rewrite Hc. cbn [bind]. now rewrite Ha.
Qed.

Lemma brief_entry (distributions entries : list string) (cache url e n : string) :
  In e ([summary_head env distributions; ""] ++ entries
        ++ [shard_line env cache; cache_line env])%list ->
  contains e n ->
  contains (description (brief distributions entries cache url)) n.
Proof. intros Hin Hn. cbn [description brief]. eapply contains_join; eauto. Qed.

Lemma shard_line_cache_summary (cache : string) : contains (shard_line env cache) cache.
Proof.
  unfold shard_line.
  destruct (bot_is_auto_sharded env).
  - destruct (20 <? _); apply contains_app_r, contains_app_r, contains_prefix.
  - destruct (truthy_opt_int (bot_shard_count env)).
    + apply contains_app_r, contains_app_r, contains_prefix.
    + do 3 apply contains_app_r. apply contains_refl.
Qed.

End Brief.

(** X13. When [packages_distributions()] has no entry for [discord],
    the lookup raises [KeyError] and the command ends there: nothing is
    sent and the cog is untouched, whatever else the environment
    holds. *)
Theorem jsk_without_discord_entry (m_log : float -> float) (env : Env)
    (c : Context) (cog : Cog) :
  (forall k v, In (k, v) (packages_distributions env) -> k <> "discord") ->
  jsk m_log env c cog = (Raised (KeyError "discord"), cog, []).
Proof.
  intros H. unfold jsk, jsk_embed.
  now rewrite (dict_getitem_missing _ _ H).
Qed.

(** X14. A bot user without an avatar gets no brief: on a bot that
    has the [roles] and [channels] attributes, with every earlier step
    succeeding, [self.bot.user.avatar.url] raises [AttributeError] after
    the summary is built and before the reply. *)
Theorem jsk_without_avatar (m_log : float -> float) (env : Env)
    (c : Context) (cog : Cog) (listed : list string) (roles channels : nat) :
  dict_getitem (packages_distributions env) "discord" = Returned listed ->
  (forall dist, In dist listed -> distribution_files env dist <> None) ->
  (forall proc mem,
     psutil env = Some (Granted proc) -> memory_full_info proc = Granted mem ->
     exists physical virtual unique,
       natural_size m_log (rss mem) = Returned physical /\
       natural_size m_log (vms mem) = Returned virtual /\
       natural_size m_log (uss mem) = Returned unique) ->
  bot_roles env = Some roles ->
  bot_channels env = Some channels ->
  bot_user_avatar env = None ->
  jsk m_log env c cog
  = (Raised (AttributeError "'NoneType' object has no attribute 'url'"), cog, []).
Proof.
  intros Hd Hf Hm Hr Hc Ha.
  destruct (vending_returns env listed Hf) as [ds Hds].
  destruct (psutil_lines_returns m_log env Hm) as (pl & Hpl & _).
  unfold jsk, jsk_embed.
  rewrite Hd. cbn [bind]. rewrite Hds. cbn [bind]. rewrite Hpl. cbn [bind].
  rewrite (cache_summary_returns env roles channels Hr Hc). cbn [bind].
  now rewrite Ha.
Qed.


(** X16. When [psutil.Process()] itself is denied, the brief is still
    sent (on a bot that has the [roles] and [channels] attributes) and
    says so: its description contains the notice that the process lacks
    the access rights. *)
Theorem jsk_psutil_denied (m_log : float -> float) (env : Env)
    (c : Context) (cog : Cog) (listed : list string) (roles channels : nat)
    (url : string) :
  dict_getitem (packages_distributions env) "discord" = Returned listed ->
  (forall dist, In dist listed -> distribution_files env dist <> None) ->
  psutil env = Some AccessDenied ->
  bot_roles env = Some roles ->
  bot_channels env = Some channels ->
  bot_user_avatar env = Some url ->
  exists em,
    jsk m_log env c cog = (Returned tt, cog, [CtxReply em false]) /\
    contains (description em)
      ("psutil is installed, but this process does not have high enough access rights "
       ++ "to query process information.").
Proof.
  intros Hd Hf Hp Hr Hc Ha.
  destruct (vending_returns env listed Hf) as [ds Hds].
  eexists. split.
  - eapply (jsk_run m_log env c cog listed ds);
      [exact Hd | exact Hds | | exact (cache_summary_returns env roles channels Hr Hc)
       | exact Ha].
    unfold psutil_lines. rewrite Hp. reflexivity.
  - eapply brief_entry.
    + cbn [Datatypes.app In]. right; right; left. reflexivity.
    + rewrite <- append_assoc. apply contains_prefix.
Qed.

(** X17. With [psutil] granting the process, its name and its thread
    count, the brief (on a bot that has the [roles] and [channels]
    attributes) names them, whether or not the memory figures were
    granted: the description contains "Running on PID <pid> (`<name>`)
    with <n> thread(s).". *)
Theorem jsk_process_line (m_log : float -> float) (env : Env)
    (c : Context) (cog : Cog) (listed : list string) (roles channels : nat)
    (url : string) (proc : Process) (name : string) (thread_count : Z) :
  dict_getitem (packages_distributions env) "discord" = Returned listed ->
  (forall dist, In dist listed -> distribution_files env dist <> None) ->
  psutil env = Some (Granted proc) ->
  (forall mem, memory_full_info proc = Granted mem ->
     exists physical virtual unique,
       natural_size m_log (rss mem) = Returned physical /\
       natural_size m_log (vms mem) = Returned virtual /\
       natural_size m_log (uss mem) = Returned unique) ->
  proc_name proc = Granted name ->
  num_threads proc = Granted thread_count ->
  bot_roles env = Some roles ->
  bot_channels env = Some channels ->
  bot_user_avatar env = Some url ->
  exists em,
    jsk m_log env c cog = (Returned tt, cog, [CtxReply em false]) /\
    contains (description em)
      ("Running on PID " ++ str_int (proc_pid proc) ++ " (`" ++ name ++ "`) with "
       ++ str_int thread_count ++ " thread(s).").
Proof.
  intros Hd Hf Hp Hm Hn Ht Hr Hc Ha.
  destruct (vending_returns env listed Hf) as [ds Hds].
  assert (Hmem : exists lines, memory_lines m_log proc = Returned lines).
  { unfold memory_lines. destruct (memory_full_info proc) as [mem|]; [|eauto].
    destruct (Hm mem eq_refl) as (a & b & d & -> & -> & ->). cbn [bind]. eauto. }
  destruct Hmem as [ml Hml].
  eexists. split.
  - eapply (jsk_run m_log env c cog listed ds);
      [exact Hd | exact Hds | | exact (cache_summary_returns env roles channels Hr Hc)
       | exact Ha].
    unfold psutil_lines. rewrite Hp, Hml. reflexivity.
  - eapply brief_entry; [|apply contains_refl].
    cbn [Datatypes.app In]. right; right. apply in_or_app. left.
    apply in_or_app. right. apply in_or_app. left.
    unfold process_lines. rewrite Hn, Ht. now left.
Qed.

(** X18. When none of the distributions listed for [discord] ships
    [discord/__init__.py], the brief (on a bot that has the [roles] and
    [channels] attributes) falls back on the module's own version: the
    description contains "unknown `<discord.__version__>`". *)
Theorem jsk_unknown_distribution (m_log : float -> float) (env : Env)
    (c : Context) (cog : Cog) (listed : list string) (roles channels : nat)
    (url : string) :
  dict_getitem (packages_distributions env) "discord" = Returned listed ->
  (forall dist, In dist listed ->
     exists files, distribution_files env dist = Some files
                   /\ existsb is_discord_init files = false) ->
  (forall proc mem,
     psutil env = Some (Granted proc) -> memory_full_info proc = Granted mem ->
     exists physical virtual unique,
       natural_size m_log (rss mem) = Returned physical /\
       natural_size m_log (vms mem) = Returned virtual /\
       natural_size m_log (uss mem) = Returned unique) ->
  bot_roles env = Some roles ->
  bot_channels env = Some channels ->
  bot_user_avatar env = Some url ->
  exists em,
    jsk m_log env c cog = (Returned tt, cog, [CtxReply em false]) /\
    contains (description em) ("unknown `" ++ discord_version env ++ "`").
Proof.
  intros Hd Hf Hm Hr Hc Ha.
  pose proof (vending_none env listed Hf) as Hds.
  destruct (psutil_lines_returns m_log env Hm) as (pl & Hpl & _).
  eexists. split.
  - apply (jsk_run m_log env c cog listed [] pl _ url Hd Hds Hpl
             (cache_summary_returns env roles channels Hr Hc) Ha).
  - eapply brief_entry; [now left|].
    unfold summary_head, dist_version.
    apply contains_app_r, contains_app_l.
    do 6 apply contains_app_r. apply contains_app_l, contains_refl.
Qed.

(** X19. The brief (on a bot that has the [roles] and [channels]
    attributes) names the first listed distribution that ships
    [discord/__init__.py], skipping those before it that do not: the
    description contains "<distribution> Version is `v<its version>`". *)
Theorem jsk_named_distribution (m_log : float -> float) (env : Env)
    (c : Context) (cog : Cog) (skipped rest : list string) (dist : string)
    (roles channels : nat) (url : string) :
  dict_getitem (packages_distributions env) "discord"
  = Returned (skipped ++ dist :: rest)%list ->
  (forall d, In d (skipped ++ dist :: rest) -> distribution_files env d <> None) ->
  (forall d files, In d skipped -> distribution_files env d = Some files ->
     existsb is_discord_init files = false) ->
  (forall files, distribution_files env dist = Some files ->
     existsb is_discord_init files = true) ->
  (forall proc mem,
     psutil env = Some (Granted proc) -> memory_full_info proc = Granted mem ->
     exists physical virtual unique,
       natural_size m_log (rss mem) = Returned physical /\
       natural_size m_log (vms mem) = Returned virtual /\
       natural_size m_log (uss mem) = Returned unique) ->
  bot_roles env = Some roles ->
  bot_channels env = Some channels ->
  bot_user_avatar env = Some url ->
  exists em,
    jsk m_log env c cog = (Returned tt, cog, [CtxReply em false]) /\
    contains (description em)
      (dist ++ " Version is `v" ++ str_opt (package_version env dist) ++ "`").
Proof.
  intros Hd Hall Hskip Hdist Hm Hr Hc Ha.
  destruct (vending_first env skipped rest dist Hall Hskip Hdist) as [others Hds].
  destruct (psutil_lines_returns m_log env Hm) as (pl & Hpl & _).
  eexists. split.
  - apply (jsk_run m_log env c cog _ (dist :: others) pl _ url Hd Hds Hpl
             (cache_summary_returns env roles channels Hr Hc) Ha).
  - eapply brief_entry; [now left|].
    unfold summary_head, dist_version.
    apply contains_app_r, contains_app_l.
    do 6 apply contains_app_r. apply contains_app_l, contains_app_r, contains_refl.
Qed.

(** X20. On a bot that has the [roles] and [channels] attributes,
    every brief that is sent shows the four cache counts: the
    description contains the numbers of guilds, users, roles and
    channels, whatever the sharding. *)
Theorem jsk_cache_counts (m_log : float -> float) (env : Env)
    (c : Context) (cog : Cog) (listed : list string) (roles channels : nat)
    (url : string) :
  dict_getitem (packages_distributions env) "discord" = Returned listed ->
  (forall dist, In dist listed -> distribution_files env dist <> None) ->
  (forall proc mem,
     psutil env = Some (Granted proc) -> memory_full_info proc = Granted mem ->
     exists physical virtual unique,
       natural_size m_log (rss mem) = Returned physical /\
       natural_size m_log (vms mem) = Returned virtual /\
       natural_size m_log (uss mem) = Returned unique) ->
  bot_roles env = Some roles ->
  bot_channels env = Some channels ->
  bot_user_avatar env = Some url ->
  exists em,
    jsk m_log env c cog = (Returned tt, cog, [CtxReply em false]) /\
    contains (description em)
      ("Bot Total Guilds `" ++ str_int (Z.of_nat (bot_guilds env)) ++ "`guilds.") /\
    contains (description em)
      ("Bot Total Users `" ++ str_int (Z.of_nat (bot_users env)) ++ "`users.") /\
    contains (description em)
      ("Bot Total roles `" ++ str_int (Z.of_nat roles) ++ "`roles.") /\
    contains (description em)
      ("Bot Total Channel `" ++ str_int (Z.of_nat channels) ++ "`channels.").
Proof.
  intros Hd Hf Hm Hr Hc Ha.
  destruct (vending_returns env listed Hf) as [ds Hds].
  destruct (psutil_lines_returns m_log env Hm) as (pl & Hpl & _).
  pose proof (cache_summary_returns env roles channels Hr Hc) as Hcs.
  eexists. split; [apply (jsk_run m_log env c cog listed ds pl _ url Hd Hds Hpl Hcs Ha)|].
  assert (Hin : In (shard_line env (cache_text env roles channels))
                  ([summary_head env ds; ""] ++ pl
                   ++ [shard_line env (cache_text env roles channels);
                       cache_line env])%list)
    by (cbn [Datatypes.app In]; right; right; apply in_or_app; right; now left).
  assert (Hn : forall n, contains (cache_text env roles channels) n ->
                         contains (description
                                     (brief env ds pl (cache_text env roles channels) url))
                                  n).
  { intros n Hcn. eapply brief_entry; [exact Hin|].
    eapply contains_trans; [apply shard_line_cache_summary | exact Hcn]. }
  unfold cache_text in Hn at 1.
  repeat split; apply Hn.
  - apply contains_app_r.
    split_at " **" (" <a:partner:928740251038535771> " ++ nl
      ++ arrow ++ " Bot Total Users `" ++ str_int (Z.of_nat (bot_users env))
      ++ "`users. <:members:928563309786050561>" ++ nl
      ++ arrow ++ " Bot Total roles `" ++ str_int (Z.of_nat roles)
      ++ "`roles. <a:roles_:928563417667731458>" ++ nl
      ++ arrow ++ " Bot Total Channel `" ++ str_int (Z.of_nat channels)
      ++ "`channels. <:text:928563359287234560>**").
  - do 6 apply contains_app_r.
    split_at " " (" <:members:928563309786050561>" ++ nl
      ++ arrow ++ " Bot Total roles `" ++ str_int (Z.of_nat roles)
      ++ "`roles. <a:roles_:928563417667731458>" ++ nl
      ++ arrow ++ " Bot Total Channel `" ++ str_int (Z.of_nat channels)
      ++ "`channels. <:text:928563359287234560>**").
  - do 11 apply contains_app_r.
    split_at " " (" <a:roles_:928563417667731458>" ++ nl
      ++ arrow ++ " Bot Total Channel `" ++ str_int (Z.of_nat channels)
      ++ "`channels. <:text:928563359287234560>**").
  - do 16 apply contains_app_r.
    split_at " " " <:text:928563359287234560>**".
Qed.

(** X21. On a bot without the [roles] attribute, as discord.py's own
    [Bot] and [AutoShardedBot] are, or without [channels], the brief is
    never sent: once the distributions and the [psutil] block are
    through, [cache_summary] raises [AttributeError] for the first
    attribute that is missing, and the cog is untouched. *)
Theorem jsk_without_roles_or_channels (m_log : float -> float) (env : Env)
    (c : Context) (cog : Cog) (listed : list string) :
  dict_getitem (packages_distributions env) "discord" = Returned listed ->
  (forall dist, In dist listed -> distribution_files env dist <> None) ->
  (forall proc mem,
     psutil env = Some (Granted proc) -> memory_full_info proc = Granted mem ->
     exists physical virtual unique,
       natural_size m_log (rss mem) = Returned physical /\
       natural_size m_log (vms mem) = Returned virtual /\
       natural_size m_log (uss mem) = Returned unique) ->
  bot_roles env = None \/ bot_channels env = None ->
  jsk m_log env c cog
  = (Raised (AttributeError
               ("'" ++ bot_class_name env ++ "' object has no attribute '"
                ++ match bot_roles env with
                   | None => "roles"
                   | Some _ => "channels"
                   end ++ "'")),
     cog, []).
Proof.
  intros Hd Hf Hm Hmissing.
  destruct (vending_returns env listed Hf) as [ds Hds].
  destruct (psutil_lines_returns m_log env Hm) as (pl & Hpl & _).
  unfold jsk, jsk_embed.
  rewrite Hd. cbn [bind]. rewrite Hds. cbn [bind]. rewrite Hpl. cbn [bind].
  unfold cache_summary, bot_len.
  destruct (bot_roles env) as [r|]; [|reflexivity].
  destruct Hmissing as [Hmissing|Hmissing]; [discriminate|].
  now rewrite Hmissing.
Qed.

(** A family of environments for running the statements above: the
    distributions, their files, [psutil] and the avatar vary, the rest
    is fixed. *)
Definition sample_env (dists : list (string * list string))
    (files : string -> option (list (list string)))
    (ps : option (access Process)) (avatar : option string) : Env :=
  {| sys_version := "3.10.4";
     package_version := fun _ => Some "2.0.0";
     discord_version := "2.0.0";
     discord_version_info := (2, 0, 0);
     packages_distributions := dists;
     distribution_files := files;
     load_time_timestamp := binary_normalize prec emax 1646809541 0 false;
     start_time_timestamp := binary_normalize prec emax 1646809542 0 false;
     psutil := ps;
     bot_is_auto_sharded := false;
     bot_shards := [];
     bot_shard_count := Some 4;
     bot_shard_id := Some 2;
     bot_class_name := "HarshBot";
     bot_guilds := 12%nat;
     bot_users := 3400%nat;
     bot_roles := Some 95%nat;
     bot_channels := Some 210%nat;
     connection_max_messages := None;
     connection_guild_subscriptions := true;
     intents_presences := true;
     intents_members := false;
     bot_user_avatar := avatar;
     bot_latency_rounded := "4.71" |}.

Definition discord_py : list (string * list string) := [("discord", ["discord.py"])].
Definition with_init : string -> option (list (list string)) :=
  fun _ => Some [["discord"; "py.typed"]; ["discord"; "__init__.py"]].
Definition without_init : string -> option (list (list string)) :=
  fun _ => Some [["discord"; "py.typed"]].
Definition avatar_url : string := "https://cdn.discordapp.com/avatars/1/a.png".

Definition guarded_process : Process :=
  {| memory_full_info := AccessDenied;
     proc_name := Granted "python3";
     proc_pid := 4242;
     num_threads := Granted 7 |}.


Lemma jsk_without_discord_entry_witness :
  jsk log2_floor (sample_env [("jishaku", ["jishaku"])] with_init None (Some avatar_url))
    any_ctx any_cog
  = (Raised (KeyError "discord"), any_cog, []).
Proof.
  apply jsk_without_discord_entry.
  intros k v [[= <- _]|[]]. discriminate.
Defined.

Lemma jsk_without_avatar_witness :
  jsk log2_floor (sample_env discord_py with_init (Some (Granted sample_process)) None)
    any_ctx any_cog
  = (Raised (AttributeError "'NoneType' object has no attribute 'url'"), any_cog, []).
Proof.
  apply (jsk_without_avatar log2_floor _ any_ctx any_cog ["discord.py"] 95 210).
  - reflexivity.
  - intros dist _. discriminate.
  - intros proc mem [= <-] [= <-].
    exists "11.77 MiB", "1.00 KiB", "1.50 KiB".
    repeat split; vm_compute; reflexivity.
  - reflexivity.
  - reflexivity.
  - reflexivity.
Defined.


Lemma jsk_psutil_denied_witness :
  exists em,
    jsk log2_floor (sample_env discord_py with_init (Some AccessDenied) (Some avatar_url))
      any_ctx any_cog
    = (Returned tt, any_cog, [CtxReply em false]) /\
    contains (description em)
      ("psutil is installed, but this process does not have high enough access rights "
       ++ "to query process information.").
Proof.
  apply (jsk_psutil_denied log2_floor _ any_ctx any_cog ["discord.py"] 95 210
           avatar_url).
  - reflexivity.
  - intros dist _. discriminate.
  - reflexivity.
  - reflexivity.
  - reflexivity.
  - reflexivity.
Defined.

Lemma jsk_process_line_witness :
  exists em,
    jsk log2_floor (sample_env discord_py with_init (Some (Granted guarded_process))
                      (Some avatar_url))
      any_ctx any_cog
    = (Returned tt, any_cog, [CtxReply em false]) /\
    contains (description em) "Running on PID 4242 (`python3`) with 7 thread(s).".
Proof.
  apply (jsk_process_line log2_floor _ any_ctx any_cog ["discord.py"] 95 210 avatar_url
           guarded_process "python3" 7).
  - reflexivity.
  - intros dist _. discriminate.
  - reflexivity.
  - intros mem H. discriminate.
  - reflexivity.
  - reflexivity.
  - reflexivity.
  - reflexivity.
  - reflexivity.
Defined.

Lemma jsk_unknown_distribution_witness :
  exists em,
    jsk log2_floor (sample_env discord_py without_init None (Some avatar_url))
      any_ctx any_cog
    = (Returned tt, any_cog, [CtxReply em false]) /\
    contains (description em) "unknown `2.0.0`".
Proof.
  apply (jsk_unknown_distribution log2_floor
           (sample_env discord_py without_init None (Some avatar_url))
           any_ctx any_cog ["discord.py"] 95 210 avatar_url).
  - reflexivity.
  - intros dist _. eexists. split; reflexivity.
  - intros proc mem H. discriminate.
  - reflexivity.
  - reflexivity.
  - reflexivity.
Defined.

Definition choosy_files : string -> option (list (list string)) :=
  fun d => if String.eqb d "discord-stubs" then Some [["discord"; "py.typed"]]
           else Some [["discord"; "__init__.py"]].

Lemma jsk_named_distribution_witness :
  exists em,
    jsk log2_floor
      (sample_env [("discord", ["discord-stubs"; "discord.py"])] choosy_files None
         (Some avatar_url))
      any_ctx any_cog
    = (Returned tt, any_cog, [CtxReply em false]) /\
    contains (description em) "discord.py Version is `v2.0.0`".
Proof.
  apply (jsk_named_distribution log2_floor
           (sample_env [("discord", ["discord-stubs"; "discord.py"])] choosy_files None
              (Some avatar_url))
           any_ctx any_cog ["discord-stubs"] [] "discord.py" 95 210 avatar_url).
  - reflexivity.
  - intros d [<-|[<-|[]]]; discriminate.
  - intros d files [<-|[]] [= <-]. reflexivity.
  - intros files [= <-]. reflexivity.
  - intros proc mem H. discriminate.
  - reflexivity.
  - reflexivity.
  - reflexivity.
Defined.

Lemma jsk_cache_counts_witness :
  exists em,
    jsk log2_floor modern_env any_ctx any_cog
    = (Returned tt, any_cog, [CtxReply em false]) /\
    contains (description em) "Bot Total Guilds `12`guilds." /\
    contains (description em) "Bot Total Users `3400`users." /\
    contains (description em) "Bot Total roles `95`roles." /\
    contains (description em) "Bot Total Channel `210`channels.".
Proof.
  apply (jsk_cache_counts log2_floor modern_env any_ctx any_cog ["discord.py"] 95 210
           "https://cdn.discordapp.com/avatars/1/a.png").
  - reflexivity.
  - intros dist _. discriminate.
  - intros proc mem [= <-] [= <-].
    exists "11.77 MiB", "1.00 KiB", "1.50 KiB".
    repeat split; vm_compute; reflexivity.
  - reflexivity.
  - reflexivity.
  - reflexivity.
Defined.

(** discord.py's own [Bot] class: no [roles], no [channels]. *)
Definition stock_env : Env :=
  {| sys_version := "3.10.4";
     package_version := fun _ => Some "2.0.0";
     discord_version := "2.0.0";
     discord_version_info := (2, 0, 0);
     packages_distributions := discord_py;
     distribution_files := with_init;
     load_time_timestamp := binary_normalize prec emax 1646809541 0 false;
     start_time_timestamp := binary_normalize prec emax 1646809542 0 false;
     psutil := Some (Granted sample_process);
     bot_is_auto_sharded := false;
     bot_shards := [];
     bot_shard_count := None;
     bot_shard_id := None;
     bot_class_name := "Bot";
     bot_guilds := 12%nat;
     bot_users := 3400%nat;
     bot_roles := None;
     bot_channels := None;
     connection_max_messages := Some 1000;
     connection_guild_subscriptions := true;
     intents_presences := true;
     intents_members := false;
     bot_user_avatar := Some avatar_url;
     bot_latency_rounded := "4.71" |}.

Lemma jsk_without_roles_or_channels_witness :
  jsk log2_floor stock_env any_ctx any_cog
  = (Raised (AttributeError "'Bot' object has no attribute 'roles'"), any_cog, []).
Proof.
  apply (jsk_without_roles_or_channels log2_floor stock_env any_ctx any_cog
           ["discord.py"]).
  - reflexivity.
  - intros dist _. discriminate.
  - intros proc mem [= <-] [= <-].
    exists "11.77 MiB", "1.00 KiB", "1.50 KiB".
    repeat split; vm_compute; reflexivity.
  - left. reflexivity.
Defined.

End StatusEdgeFacts.
